(** * OBR forecast extraction (forecast_sources.sources.obr)

    A shallow embedding of [forecast_sources/sources/obr.py]: the Python
    values a spreadsheet cell can hold, the part of pandas the module calls
    ([DataFrame.shape], [DataFrame.iloc], [pd.notna], the [pd.DataFrame]
    constructor), the cache directory and the network as an explicit world,
    and the class [OBRForecast] itself, followed by the properties of its
    methods. *)

From Stdlib Require Import ZArith List String Ascii Bool Lia.
From Stdlib Require Import Floats.SpecFloat.
From stdpp Require Import base option list gmap strings.

Local Open Scope string_scope.
Local Open Scope Z_scope.

(** ** Python values, exceptions *)

Module Py.

(** The exceptions the module can meet. *)
Inductive exn : Type :=
| IndexError          (* a positional indexer out of bounds *)
| OverflowError       (* int(inf), float(n) for n beyond the doubles *)
| ValueError (msg : string)
| TypeError
| HTTPError (status : Z)
| ConnectionError
| OSError.

(** A computation either returns or raises. *)
Inductive result (A : Type) : Type :=
| Ok (a : A)
| Raise (e : exn).
Arguments Ok {A} a.
Arguments Raise {A} e.

#[export] Instance result_ret : MRet result := fun A a => Ok a.
#[export] Instance result_bind : MBind result := fun A B f m =>
  match m with
  | Ok a => f a
  | Raise e => Raise e
  end.

(** A loop [for x in xs: acc = body(acc, x)] whose body may raise. *)
Fixpoint for_each {S A : Type} (body : S -> A -> result S) (xs : list A) (acc : S)
  : result S :=
  match xs with
  | [] => Ok acc
  | x :: xs' =>
      match body acc x with
      | Ok acc' => for_each body xs' acc'
      | Raise e => Raise e
      end
  end.

(** Python floats are IEEE 754 binary64 values. *)
Definition prec : Z := 53.
Definition emax : Z := 1024.
Definition nan : spec_float := S754_nan.

(** The double nearest to [m * 2^e], to write float literals with. *)
Definition dbl (m e : Z) : spec_float := binary_normalize prec emax m e false.

(** A Python [str] is the list of its code points; [str] gives the [str] of
    a literal of the ASCII range. *)
Definition str (s : string) : list Z :=
  map (fun c => Z.of_nat (nat_of_ascii c)) (list_ascii_of_string s).

(** What [df.iloc] can return for a cell. [PyFloat] is a [float] (a numpy
    float is one); [PyNumpyInt] is a numpy integer, which a column holding
    integers only gives, and which is no [int]; [PyNone] is [None];
    [PyOther] stands for any other non-null object, one that is no [str],
    [int] or [float]: a [datetime], say. *)
Inductive obj : Type :=
| PyStr (s : list Z)
| PyInt (n : Z)
| PyBool (b : bool)
| PyFloat (f : spec_float)
| PyNumpyInt (n : Z)
| PyNone
| PyOther.

(** [isinstance(x, str)] *)
Definition isinstance_str (x : obj) : bool :=
  match x with
  | PyStr _ => true
  | _ => false
  end.

(** [isinstance(x, (int, float))]; [bool] is a subclass of [int]. *)
Definition isinstance_int_float (x : obj) : bool :=
  match x with
  | PyInt _ | PyBool _ | PyFloat _ => true
  | _ => false
  end.

(** [int(f)] for a float: truncation towards zero; infinities and NaN raise. *)
Definition int_of_float (f : spec_float) : result Z :=
  match f with
  | S754_zero _ => Ok 0
  | S754_infinity _ => Raise OverflowError
  | S754_nan => Raise (ValueError "cannot convert float NaN to integer")
  | S754_finite s m e =>
      let mag := Z.shiftl (Z.pos m) e in
      Ok (if s then - mag else mag)
  end.

(** [int(x)] *)
Definition int (x : obj) : result Z :=
  match x with
  | PyInt n => Ok n
  | PyBool b => Ok (if b then 1 else 0)
  | PyFloat f => int_of_float f
  | PyNumpyInt n => Ok n
  | PyStr _ => Raise (ValueError "invalid literal for int()")
  | PyNone | PyOther => Raise TypeError
  end.

(** [float(n)] for an int: the nearest double, ties to even; an int whose
    nearest double would be infinite raises. *)
Definition float_of_int (n : Z) : result spec_float :=
  match binary_normalize prec emax n 0 false with
  | S754_infinity _ => Raise OverflowError
  | f => Ok f
  end.

(** [float(x)] *)
Definition float (x : obj) : result spec_float :=
  match x with
  | PyInt n => float_of_int n
  | PyBool b => float_of_int (if b then 1 else 0)
  | PyFloat f => Ok f
  | PyNumpyInt n => float_of_int n
  | PyStr _ => Raise (ValueError "could not convert string to float")
  | PyNone | PyOther => Raise TypeError
  end.

(** The lower-case mappings of single code points to single code points, in
    runs [(first, last, step, delta)]: every [step]-th code point from [first]
    to [last] maps to itself plus [delta]. Unicode 14.0, as CPython 3.11
    carries it. U+0130 and U+03A3 are left to [to_lower_full] and
    [handle_capital_sigma]. *)
Definition LOWER_RUNS : list (Z * Z * Z * Z) :=
  [
   (65, 90, 1, 32); (192, 214, 1, 32); (216, 222, 1, 32); (256, 302, 2, 1);
   (306, 310, 2, 1); (313, 327, 2, 1); (330, 374, 2, 1); (376, 376, 1, -121);
   (377, 381, 2, 1); (385, 385, 1, 210); (386, 388, 2, 1); (390, 390, 1, 206);
   (391, 391, 1, 1); (393, 394, 1, 205); (395, 395, 1, 1); (398, 398, 1, 79);
   (399, 399, 1, 202); (400, 400, 1, 203); (401, 401, 1, 1); (403, 403, 1, 205);
   (404, 404, 1, 207); (406, 406, 1, 211); (407, 407, 1, 209); (408, 408, 1, 1);
   (412, 412, 1, 211); (413, 413, 1, 213); (415, 415, 1, 214); (416, 420, 2, 1);
   (422, 422, 1, 218); (423, 423, 1, 1); (425, 425, 1, 218); (428, 428, 1, 1);
   (430, 430, 1, 218); (431, 431, 1, 1); (433, 434, 1, 217); (435, 437, 2, 1);
   (439, 439, 1, 219); (440, 440, 1, 1); (444, 444, 1, 1); (452, 452, 1, 2);
   (453, 453, 1, 1); (455, 455, 1, 2); (456, 456, 1, 1); (458, 458, 1, 2);
   (459, 475, 2, 1); (478, 494, 2, 1); (497, 497, 1, 2); (498, 500, 2, 1);
   (502, 502, 1, -97); (503, 503, 1, -56); (504, 542, 2, 1); (544, 544, 1, -130);
   (546, 562, 2, 1); (570, 570, 1, 10795); (571, 571, 1, 1); (573, 573, 1, -163);
   (574, 574, 1, 10792); (577, 577, 1, 1); (579, 579, 1, -195); (580, 580, 1, 69);
   (581, 581, 1, 71); (582, 590, 2, 1); (880, 882, 2, 1); (886, 886, 1, 1);
   (895, 895, 1, 116); (902, 902, 1, 38); (904, 906, 1, 37); (908, 908, 1, 64);
   (910, 911, 1, 63); (913, 929, 1, 32); (932, 939, 1, 32); (975, 975, 1, 8);
   (984, 1006, 2, 1); (1012, 1012, 1, -60); (1015, 1015, 1, 1); (1017, 1017, 1, -7);
   (1018, 1018, 1, 1); (1021, 1023, 1, -130); (1024, 1039, 1, 80); (1040, 1071, 1, 32);
   (1120, 1152, 2, 1); (1162, 1214, 2, 1); (1216, 1216, 1, 15); (1217, 1229, 2, 1);
   (1232, 1326, 2, 1); (1329, 1366, 1, 48); (4256, 4293, 1, 7264); (4295, 4295, 1, 7264);
   (4301, 4301, 1, 7264); (5024, 5103, 1, 38864); (5104, 5109, 1, 8);
   (7312, 7354, 1, -3008); (7357, 7359, 1, -3008); (7680, 7828, 2, 1);
   (7838, 7838, 1, -7615); (7840, 7934, 2, 1); (7944, 7951, 1, -8); (7960, 7965, 1, -8);
   (7976, 7983, 1, -8); (7992, 7999, 1, -8); (8008, 8013, 1, -8); (8025, 8031, 2, -8);
   (8040, 8047, 1, -8); (8072, 8079, 1, -8); (8088, 8095, 1, -8); (8104, 8111, 1, -8);
   (8120, 8121, 1, -8); (8122, 8123, 1, -74); (8124, 8124, 1, -9); (8136, 8139, 1, -86);
   (8140, 8140, 1, -9); (8152, 8153, 1, -8); (8154, 8155, 1, -100); (8168, 8169, 1, -8);
   (8170, 8171, 1, -112); (8172, 8172, 1, -7); (8184, 8185, 1, -128);
   (8186, 8187, 1, -126); (8188, 8188, 1, -9); (8486, 8486, 1, -7517);
   (8490, 8490, 1, -8383); (8491, 8491, 1, -8262); (8498, 8498, 1, 28);
   (8544, 8559, 1, 16); (8579, 8579, 1, 1); (9398, 9423, 1, 26); (11264, 11311, 1, 48);
   (11360, 11360, 1, 1); (11362, 11362, 1, -10743); (11363, 11363, 1, -3814);
   (11364, 11364, 1, -10727); (11367, 11371, 2, 1); (11373, 11373, 1, -10780);
   (11374, 11374, 1, -10749); (11375, 11375, 1, -10783); (11376, 11376, 1, -10782);
   (11378, 11378, 1, 1); (11381, 11381, 1, 1); (11390, 11391, 1, -10815);
   (11392, 11490, 2, 1); (11499, 11501, 2, 1); (11506, 11506, 1, 1); (42560, 42604, 2, 1);
   (42624, 42650, 2, 1); (42786, 42798, 2, 1); (42802, 42862, 2, 1); (42873, 42875, 2, 1);
   (42877, 42877, 1, -35332); (42878, 42886, 2, 1); (42891, 42891, 1, 1);
   (42893, 42893, 1, -42280); (42896, 42898, 2, 1); (42902, 42920, 2, 1);
   (42922, 42922, 1, -42308); (42923, 42923, 1, -42319); (42924, 42924, 1, -42315);
   (42925, 42925, 1, -42305); (42926, 42926, 1, -42308); (42928, 42928, 1, -42258);
   (42929, 42929, 1, -42282); (42930, 42930, 1, -42261); (42931, 42931, 1, 928);
   (42932, 42946, 2, 1); (42948, 42948, 1, -48); (42949, 42949, 1, -42307);
   (42950, 42950, 1, -35384); (42951, 42953, 2, 1); (42960, 42960, 1, 1);
   (42966, 42968, 2, 1); (42997, 42997, 1, 1); (65313, 65338, 1, 32);
   (66560, 66599, 1, 40); (66736, 66771, 1, 40); (66928, 66938, 1, 39);
   (66940, 66954, 1, 39); (66956, 66962, 1, 39); (66964, 66965, 1, 39);
   (68736, 68786, 1, 64); (71840, 71871, 1, 32); (93760, 93791, 1, 32);
   (125184, 125217, 1, 34) ].

(** The case-ignorable code points, in ranges [(first, last)]. *)
Definition CASE_IGNORABLE : list (Z * Z) :=
  [
   (39, 39); (46, 46); (58, 58); (94, 94); (96, 96); (168, 168); (173, 173); (175, 175);
   (180, 180); (183, 184); (688, 879); (884, 885); (890, 890); (900, 901); (903, 903);
   (1155, 1161); (1369, 1369); (1375, 1375); (1425, 1469); (1471, 1471); (1473, 1474);
   (1476, 1477); (1479, 1479); (1524, 1524); (1536, 1541); (1552, 1562); (1564, 1564);
   (1600, 1600); (1611, 1631); (1648, 1648); (1750, 1757); (1759, 1768); (1770, 1773);
   (1807, 1807); (1809, 1809); (1840, 1866); (1958, 1968); (2027, 2037); (2042, 2042);
   (2045, 2045); (2070, 2093); (2137, 2139); (2184, 2184); (2192, 2193); (2200, 2207);
   (2249, 2306); (2362, 2362); (2364, 2364); (2369, 2376); (2381, 2381); (2385, 2391);
   (2402, 2403); (2417, 2417); (2433, 2433); (2492, 2492); (2497, 2500); (2509, 2509);
   (2530, 2531); (2558, 2558); (2561, 2562); (2620, 2620); (2625, 2626); (2631, 2632);
   (2635, 2637); (2641, 2641); (2672, 2673); (2677, 2677); (2689, 2690); (2748, 2748);
   (2753, 2757); (2759, 2760); (2765, 2765); (2786, 2787); (2810, 2815); (2817, 2817);
   (2876, 2876); (2879, 2879); (2881, 2884); (2893, 2893); (2901, 2902); (2914, 2915);
   (2946, 2946); (3008, 3008); (3021, 3021); (3072, 3072); (3076, 3076); (3132, 3132);
   (3134, 3136); (3142, 3144); (3146, 3149); (3157, 3158); (3170, 3171); (3201, 3201);
   (3260, 3260); (3263, 3263); (3270, 3270); (3276, 3277); (3298, 3299); (3328, 3329);
   (3387, 3388); (3393, 3396); (3405, 3405); (3426, 3427); (3457, 3457); (3530, 3530);
   (3538, 3540); (3542, 3542); (3633, 3633); (3636, 3642); (3654, 3662); (3761, 3761);
   (3764, 3772); (3782, 3782); (3784, 3789); (3864, 3865); (3893, 3893); (3895, 3895);
   (3897, 3897); (3953, 3966); (3968, 3972); (3974, 3975); (3981, 3991); (3993, 4028);
   (4038, 4038); (4141, 4144); (4146, 4151); (4153, 4154); (4157, 4158); (4184, 4185);
   (4190, 4192); (4209, 4212); (4226, 4226); (4229, 4230); (4237, 4237); (4253, 4253);
   (4348, 4348); (4957, 4959); (5906, 5908); (5938, 5939); (5970, 5971); (6002, 6003);
   (6068, 6069); (6071, 6077); (6086, 6086); (6089, 6099); (6103, 6103); (6109, 6109);
   (6155, 6159); (6211, 6211); (6277, 6278); (6313, 6313); (6432, 6434); (6439, 6440);
   (6450, 6450); (6457, 6459); (6679, 6680); (6683, 6683); (6742, 6742); (6744, 6750);
   (6752, 6752); (6754, 6754); (6757, 6764); (6771, 6780); (6783, 6783); (6823, 6823);
   (6832, 6862); (6912, 6915); (6964, 6964); (6966, 6970); (6972, 6972); (6978, 6978);
   (7019, 7027); (7040, 7041); (7074, 7077); (7080, 7081); (7083, 7085); (7142, 7142);
   (7144, 7145); (7149, 7149); (7151, 7153); (7212, 7219); (7222, 7223); (7288, 7293);
   (7376, 7378); (7380, 7392); (7394, 7400); (7405, 7405); (7412, 7412); (7416, 7417);
   (7468, 7530); (7544, 7544); (7579, 7679); (8125, 8125); (8127, 8129); (8141, 8143);
   (8157, 8159); (8173, 8175); (8189, 8190); (8203, 8207); (8216, 8217); (8228, 8228);
   (8231, 8231); (8234, 8238); (8288, 8292); (8294, 8303); (8305, 8305); (8319, 8319);
   (8336, 8348); (8400, 8432); (11388, 11389); (11503, 11505); (11631, 11631);
   (11647, 11647); (11744, 11775); (11823, 11823); (12293, 12293); (12330, 12333);
   (12337, 12341); (12347, 12347); (12441, 12446); (12540, 12542); (40981, 40981);
   (42232, 42237); (42508, 42508); (42607, 42610); (42612, 42621); (42623, 42623);
   (42652, 42655); (42736, 42737); (42752, 42785); (42864, 42864); (42888, 42890);
   (42994, 42996); (43000, 43001); (43010, 43010); (43014, 43014); (43019, 43019);
   (43045, 43046); (43052, 43052); (43204, 43205); (43232, 43249); (43263, 43263);
   (43302, 43309); (43335, 43345); (43392, 43394); (43443, 43443); (43446, 43449);
   (43452, 43453); (43471, 43471); (43493, 43494); (43561, 43566); (43569, 43570);
   (43573, 43574); (43587, 43587); (43596, 43596); (43632, 43632); (43644, 43644);
   (43696, 43696); (43698, 43700); (43703, 43704); (43710, 43711); (43713, 43713);
   (43741, 43741); (43756, 43757); (43763, 43764); (43766, 43766); (43867, 43871);
   (43881, 43883); (44005, 44005); (44008, 44008); (44013, 44013); (64286, 64286);
   (64434, 64450); (65024, 65039); (65043, 65043); (65056, 65071); (65106, 65106);
   (65109, 65109); (65279, 65279); (65287, 65287); (65294, 65294); (65306, 65306);
   (65342, 65342); (65344, 65344); (65392, 65392); (65438, 65439); (65507, 65507);
   (65529, 65531); (66045, 66045); (66272, 66272); (66422, 66426); (67456, 67461);
   (67463, 67504); (67506, 67514); (68097, 68099); (68101, 68102); (68108, 68111);
   (68152, 68154); (68159, 68159); (68325, 68326); (68900, 68903); (69291, 69292);
   (69446, 69456); (69506, 69509); (69633, 69633); (69688, 69702); (69744, 69744);
   (69747, 69748); (69759, 69761); (69811, 69814); (69817, 69818); (69821, 69821);
   (69826, 69826); (69837, 69837); (69888, 69890); (69927, 69931); (69933, 69940);
   (70003, 70003); (70016, 70017); (70070, 70078); (70089, 70092); (70095, 70095);
   (70191, 70193); (70196, 70196); (70198, 70199); (70206, 70206); (70367, 70367);
   (70371, 70378); (70400, 70401); (70459, 70460); (70464, 70464); (70502, 70508);
   (70512, 70516); (70712, 70719); (70722, 70724); (70726, 70726); (70750, 70750);
   (70835, 70840); (70842, 70842); (70847, 70848); (70850, 70851); (71090, 71093);
   (71100, 71101); (71103, 71104); (71132, 71133); (71219, 71226); (71229, 71229);
   (71231, 71232); (71339, 71339); (71341, 71341); (71344, 71349); (71351, 71351);
   (71453, 71455); (71458, 71461); (71463, 71467); (71727, 71735); (71737, 71738);
   (71995, 71996); (71998, 71998); (72003, 72003); (72148, 72151); (72154, 72155);
   (72160, 72160); (72193, 72202); (72243, 72248); (72251, 72254); (72263, 72263);
   (72273, 72278); (72281, 72283); (72330, 72342); (72344, 72345); (72752, 72758);
   (72760, 72765); (72767, 72767); (72850, 72871); (72874, 72880); (72882, 72883);
   (72885, 72886); (73009, 73014); (73018, 73018); (73020, 73021); (73023, 73029);
   (73031, 73031); (73104, 73105); (73109, 73109); (73111, 73111); (73459, 73460);
   (78896, 78904); (92912, 92916); (92976, 92982); (92992, 92995); (94031, 94031);
   (94095, 94111); (94176, 94177); (94179, 94180); (110576, 110579); (110581, 110587);
   (110589, 110590); (113821, 113822); (113824, 113827); (118528, 118573);
   (118576, 118598); (119143, 119145); (119155, 119170); (119173, 119179);
   (119210, 119213); (119362, 119364); (121344, 121398); (121403, 121452);
   (121461, 121461); (121476, 121476); (121499, 121503); (121505, 121519);
   (122880, 122886); (122888, 122904); (122907, 122913); (122915, 122916);
   (122918, 122922); (123184, 123197); (123566, 123566); (123628, 123631);
   (125136, 125142); (125252, 125259); (127995, 127999); (917505, 917505);
   (917536, 917631); (917760, 917999) ].

(** The cased code points that are not case-ignorable, in ranges
    [(first, last)]; [handle_capital_sigma] asks about no other. *)
Definition CASED : list (Z * Z) :=
  [
   (65, 90); (97, 122); (170, 170); (181, 181); (186, 186); (192, 214); (216, 246);
   (248, 442); (444, 447); (452, 659); (661, 687); (880, 883); (886, 887); (891, 893);
   (895, 895); (902, 902); (904, 906); (908, 908); (910, 929); (931, 1013); (1015, 1153);
   (1162, 1327); (1329, 1366); (1376, 1416); (4256, 4293); (4295, 4295); (4301, 4301);
   (4304, 4346); (4349, 4351); (5024, 5109); (5112, 5117); (7296, 7304); (7312, 7354);
   (7357, 7359); (7424, 7467); (7531, 7543); (7545, 7578); (7680, 7957); (7960, 7965);
   (7968, 8005); (8008, 8013); (8016, 8023); (8025, 8025); (8027, 8027); (8029, 8029);
   (8031, 8061); (8064, 8116); (8118, 8124); (8126, 8126); (8130, 8132); (8134, 8140);
   (8144, 8147); (8150, 8155); (8160, 8172); (8178, 8180); (8182, 8188); (8450, 8450);
   (8455, 8455); (8458, 8467); (8469, 8469); (8473, 8477); (8484, 8484); (8486, 8486);
   (8488, 8488); (8490, 8493); (8495, 8500); (8505, 8505); (8508, 8511); (8517, 8521);
   (8526, 8526); (8544, 8575); (8579, 8580); (9398, 9449); (11264, 11387); (11390, 11492);
   (11499, 11502); (11506, 11507); (11520, 11557); (11559, 11559); (11565, 11565);
   (42560, 42605); (42624, 42651); (42786, 42863); (42865, 42887); (42891, 42894);
   (42896, 42954); (42960, 42961); (42963, 42963); (42965, 42969); (42997, 42998);
   (43002, 43002); (43824, 43866); (43872, 43880); (43888, 43967); (64256, 64262);
   (64275, 64279); (65313, 65338); (65345, 65370); (66560, 66639); (66736, 66771);
   (66776, 66811); (66928, 66938); (66940, 66954); (66956, 66962); (66964, 66965);
   (66967, 66977); (66979, 66993); (66995, 67001); (67003, 67004); (68736, 68786);
   (68800, 68850); (71840, 71903); (93760, 93823); (119808, 119892); (119894, 119964);
   (119966, 119967); (119970, 119970); (119973, 119974); (119977, 119980);
   (119982, 119993); (119995, 119995); (119997, 120003); (120005, 120069);
   (120071, 120074); (120077, 120084); (120086, 120092); (120094, 120121);
   (120123, 120126); (120128, 120132); (120134, 120134); (120138, 120144);
   (120146, 120485); (120488, 120512); (120514, 120538); (120540, 120570);
   (120572, 120596); (120598, 120628); (120630, 120654); (120656, 120686);
   (120688, 120712); (120714, 120744); (120746, 120770); (120772, 120779);
   (122624, 122633); (122635, 122654); (125184, 125251); (127280, 127305);
   (127312, 127337); (127344, 127369) ].

(** [first <= c <= last] for one of the ranges. *)
Definition in_ranges (ranges : list (Z * Z)) (c : Z) : bool :=
  existsb (fun r => (fst r <=? c) && (c <=? snd r)) ranges.

Definition is_case_ignorable (c : Z) : bool := in_ranges CASE_IGNORABLE c.
Definition is_cased (c : Z) : bool := in_ranges CASED c.

(** The run of [LOWER_RUNS] that holds [c], if one does. *)
Definition lower_run (c : Z) : option (Z * Z * Z * Z) :=
  List.find (fun r => match r with
                      | (first, last, step, _) =>
                          (first <=? c) && (c <=? last) && ((c - first) mod step =? 0)
                      end) LOWER_RUNS.

(** The full lower-case mapping of one code point: U+0130 gives two code
    points, every other one its simple mapping or itself. *)
Definition to_lower_full (c : Z) : list Z :=
  if c =? 304 then [105; 775]
  else match lower_run c with
       | Some (_, _, _, delta) => [c + delta]
       | None => [c]
       end.

(** The first code point that is not case-ignorable. *)
Fixpoint skip_case_ignorable (s : list Z) : option Z :=
  match s with
  | [] => None
  | c :: s' => if is_case_ignorable c then skip_case_ignorable s' else Some c
  end.

(** U+03A3 between [before] (nearest code point first) and [after]: final
    sigma U+03C2 when a cased code point precedes it and none follows, case-
    ignorable code points skipped on both sides; U+03C3 otherwise. *)
Definition handle_capital_sigma (before after : list Z) : Z :=
  match skip_case_ignorable before with
  | Some c =>
      if is_cased c
      then match skip_case_ignorable after with
           | Some d => if is_cased d then 963 else 962
           | None => 962
           end
      else 963
  | None => 963
  end.

(** [s.lower()], code point by code point, [before] being what was passed. *)
Fixpoint lower_from (before s : list Z) : list Z :=
  match s with
  | [] => []
  | c :: s' =>
      (if c =? 931 then [handle_capital_sigma before s'] else to_lower_full c)
      ++ lower_from (c :: before) s'
  end.

(** [s.lower()] *)
Definition lower (s : list Z) : list Z := lower_from [] s.

(** [s.startswith(p)] *)
Fixpoint startswith (p s : list Z) : bool :=
  match p, s with
  | [], _ => true
  | a :: p', b :: s' => if a =? b then startswith p' s' else false
  | _ :: _, [] => false
  end.

(** [p in s] for two strings: [p] occurs in [s] at some offset. *)
Fixpoint str_in (p s : list Z) : bool :=
  if startswith p s then true
  else match s with
       | [] => false
       | _ :: s' => str_in p s'
       end.

(** [range(n)] *)
Definition range (n : nat) : list nat := seq 0 n.

(** A [dict] whose keys are strings, in insertion order: [d[k] = v]. *)
Fixpoint dict_setitem {V : Type} (k : string) (v : V) (d : list (string * V))
  : list (string * V) :=
  match d with
  | [] => [(k, v)]
  | (k', v') :: d' =>
      if String.eqb k k' then (k, v) :: d' else (k', v') :: dict_setitem k v d'
  end.

(** A dict display [{k1: v1, k2: v2, ...}]: the items are stored left to right. *)
Definition dict_display {V : Type} (items : list (string * V)) : list (string * V) :=
  fold_left (fun d kv => dict_setitem (fst kv) (snd kv) d) items [].

End Py.
Import Py.

(** ** pandas *)

Module Pd.

(** A frame read with [header=None]: [columns] columns, one list of cells per
    row. A cell a row does not spell out is NaN, as in a frame built from
    ragged rows. *)
Record DataFrame : Type := mkDataFrame {
  columns : nat;
  rows : list (list obj)
}.

(** [df.shape[0]], [df.shape[1]] *)
Definition shape0 (df : DataFrame) : nat := length (rows df).
Definition shape1 (df : DataFrame) : nat := columns df.

(** A positional index [i] on an axis of length [n]: negative indices count
    from the end. *)
Definition position (i : Z) (n : nat) : option nat :=
  if (0 <=? i) && (i <? Z.of_nat n) then Some (Z.to_nat i)
  else if (- Z.of_nat n <=? i) && (i <? 0) then Some (Z.to_nat (i + Z.of_nat n))
  else None.

(** The cell at row [i], column [j], both within the shape. *)
Definition cell (df : DataFrame) (i j : nat) : obj :=
  nth j (nth i (rows df) []) (PyFloat nan).

(** [df.iloc[r, c]]: out of bounds raises [IndexError]. *)
Definition iloc (df : DataFrame) (r c : Z) : result obj :=
  match position r (shape0 df), position c (shape1 df) with
  | Some i, Some j => Ok (cell df i j)
  | _, _ => Raise IndexError
  end.

(** [pd.notna(x)] for a scalar: [None] and NaN are missing. *)
Definition notna (x : obj) : bool :=
  match x with
  | PyNone => false
  | PyFloat S754_nan => false
  | _ => true
  end.

(** The frame [compare_to] builds: an index and named columns of
    possibly-absent values. *)
Record Table : Type := mkTable {
  index : list Z;
  data : list (string * list (option spec_float))
}.

(** [pd.DataFrame(data, index=index)] for a dict of lists: every list must be
    as long as the index. *)
Definition DataFrame_of_dict (d : list (string * list (option spec_float)))
    (idx : list Z) : result Table :=
  if forallb (fun kv => Nat.eqb (length (snd kv)) (length idx)) d
  then Ok (mkTable idx d)
  else Raise (ValueError "Length of values does not match length of index").

(** [len(df)] and the number of columns of a [Table]. *)
Definition n_rows (t : Table) : nat := length (index t).
Definition column_names (t : Table) : list string := map fst (data t).

End Pd.
Import Pd.

(** ** The world outside the process *)

Module OBR.

Abbreviation bytes := (list Byte.byte).

(** What [requests.get] comes back with: no response at all (a transport
    failure), or a status and a body. *)
Inductive Response : Type :=
| NoResponse
| HTTPResponse (status : Z) (content : bytes).

(** How writing to a file that was opened ends: with all the bytes written,
    or with an error after the first [n] of them. *)
Inductive WriteOutcome : Type :=
| WriteAll
| WriteFails (n : nat).

(** The surroundings the module does not control: the platform's temporary
    directory, the server's answer to the [n]-th request of the process, which
    paths can be opened for writing, how a write to an opened path ends, and
    how a workbook's bytes read as a sheet ([inr msg] when [pd.read_excel]
    raises). *)
Record Env : Type := mkEnv {
  gettempdir : string;
  http_get : nat -> string -> Response;
  can_write : string -> bool;
  write_outcome : string -> bytes -> WriteOutcome;
  read_excel : bytes -> string -> DataFrame + string
}.

(** What the module reads and changes: the files on disk, the requests sent so
    far, and the lines printed. *)
Record World : Type := mkWorld {
  files : gmap string bytes;
  requests : list string;
  stdout : list string
}.

(** A method that may touch the world and may raise. *)
Definition M (A : Type) : Type := World -> result A * World.

#[export] Instance M_ret : MRet M := fun A a w => (Ok a, w).
#[export] Instance M_bind : MBind M := fun A B f m w =>
  match m w with
  | (Ok a, w') => f a w'
  | (Raise e, w') => (Raise e, w')
  end.

(** [raise e] and the lifting of a computation that leaves the world alone. *)
Definition raise {A : Type} (e : exn) : M A := fun w => (Raise e, w).
Definition lift {A : Type} (r : result A) : M A := fun w => (r, w).

(** The world after one more printed line. *)
Definition logged (w : World) (line : string) : World :=
  mkWorld (files w) (requests w) (stdout w ++ [line]).

(** [print(line)] *)
Definition print (line : string) : M unit := fun w => (Ok tt, logged w line).

(** [path.exists()] *)
Definition path_exists (path : string) : M bool :=
  fun w => (Ok (bool_decide (is_Some (files w !! path))), w).

(** [requests.get(url, allow_redirects=True)] followed by
    [response.raise_for_status()]: the request is sent, and a missing
    response or a 4xx/5xx status raises. *)
Definition requests_get (env : Env) (url : string) : M bytes :=
  fun w =>
    let w' := mkWorld (files w) (requests w ++ [url]) (stdout w) in
    match http_get env (length (requests w)) url with
    | NoResponse => (Raise ConnectionError, w')
    | HTTPResponse status content =>
        if (400 <=? status) && (status <? 600)
        then (Raise (HTTPError status), w')
        else (Ok content, w')
    end.

(** [with open(path, "wb") as f: f.write(content)]: opening creates the file,
    or empties it; a write that fails leaves the bytes written so far. *)
Definition write_bytes (env : Env) (path : string) (content : bytes) : M unit :=
  fun w =>
    if can_write env path
    then match write_outcome env path content with
         | WriteAll =>
             (Ok tt, mkWorld (<[path := content]> (files w)) (requests w) (stdout w))
         | WriteFails n =>
             (Raise OSError,
              mkWorld (<[path := take n content]> (files w)) (requests w) (stdout w))
         end
    else (Raise OSError, w).

(** [pd.read_excel(path, sheet_name=sheet, header=None)], with any exception
    kept as its message. *)
Definition pd_read_excel (env : Env) (path sheet : string) (w : World)
  : DataFrame + string :=
  match files w !! path with
  | Some content => read_excel env content sheet
  | None => inr "No such file or directory"
  end.

(** ** The module's tables *)

Definition OBR_URLS : gmap string string :=
  <["march-2025" :=
      "https://obr.uk/docs/dlm_uploads/Economy_Detailed_forecast_tables_March_2025.xlsx"]>
  (<["november-2025" :=
      "https://obr.uk/docs/dlm_uploads/Economy_Detailed_forecast_tables_November_2025.xlsx"]>
   ∅).

(** Metric names to (sheet name, column index); [None] where the column has to
    be found by its header. *)
Definition METRIC_LOCATIONS : list (string * (string * option Z)) :=
  [("rpi", ("1.7", Some 2));
   ("cpi", ("1.7", Some 4));
   ("cpih", ("1.7", Some 5));
   ("mortgage_interest", ("1.7", Some 7));
   ("rent", ("1.7", Some 8));
   ("average_earnings", ("1.6", None));
   ("house_prices", ("1.16", None))].

(** The column mapping of sheet 1.7, in the order the loop visits it. *)
Definition col_map : list (string * Z) :=
  [("rpi", 2); ("cpi", 4); ("cpih", 5); ("mortgage_interest", 7); ("rent", 8)].

(** The default year window of [get_series] and [compare_to]. *)
Definition default_years : list Z := [2025; 2026; 2027; 2028; 2029; 2030].

(** ** class OBRForecast *)

Record OBRForecast : Type := mkOBRForecast {
  edition : string;
  cache_dir : string;
  _data : gmap string (gmap Z spec_float)
}.

(** [self._data[metric] = series] *)
Definition set_data (self : OBRForecast) (metric : string) (series : gmap Z spec_float)
  : OBRForecast :=
  mkOBRForecast (edition self) (cache_dir self) (<[metric := series]> (_data self)).

(** [self.cache_dir / f"obr_{self.edition}_economy.xlsx"] *)
Definition cache_path (self : OBRForecast) : string :=
  cache_dir self +:+ "/" +:+ "obr_" +:+ edition self +:+ "_economy.xlsx".

(** [if not url]: [None] and the empty string are falsy. *)
Definition falsy (url : option string) : bool :=
  match url with
  | None => true
  | Some u => String.eqb u ""
  end.

Definition _get_excel_path (env : Env) (self : OBRForecast) : M string :=
  present ← path_exists (cache_path self);
  if negb present then
    let url := OBR_URLS !! edition self in
    if falsy url then
      raise (ValueError ("Unknown OBR edition: " +:+ edition self))
    else
      content ← requests_get env (default "" url);
      _ ← write_bytes env (cache_path self) content;
      mret (cache_path self)
  else mret (cache_path self).

(** The test of the inner loop of [_find_column_by_header]. *)
Definition header_in (header_text : list Z) (c : obj) : bool :=
  match c with
  | PyStr s => str_in (lower header_text) (lower s)
  | _ => false
  end.

(** The inner loop of [_find_column_by_header], over the columns still to
    visit: the first column whose cell of row [row_idx] matches. *)
Fixpoint find_in_row (df : DataFrame) (header_text : list Z) (row_idx : nat)
    (cols : list nat) : result (option nat) :=
  match cols with
  | [] => Ok None
  | col_idx :: cols' =>
      c ← iloc df (Z.of_nat row_idx) (Z.of_nat col_idx);
      if isinstance_str c && header_in header_text c then Ok (Some col_idx)
      else find_in_row df header_text row_idx cols'
  end.

(** The outer loop, over the rows still to visit. *)
Fixpoint find_in_rows (df : DataFrame) (header_text : list Z) (row_idxs : list nat)
  : result (option nat) :=
  match row_idxs with
  | [] => Ok None
  | row_idx :: row_idxs' =>
      found ← find_in_row df header_text row_idx (range (shape1 df));
      match found with
      | Some col_idx => Ok (Some col_idx)
      | None => find_in_rows df header_text row_idxs'
      end
  end.

Definition _find_column_by_header (df : DataFrame) (header_text : list Z)
  : result (option nat) :=
  find_in_rows df header_text (range (Nat.min 10 (shape0 df))).

(** The body of the loop of [_extract_annual_data] at row [row_idx]. *)
Definition annual_row (df : DataFrame) (col : Z) (result : gmap Z spec_float)
    (row_idx : nat) : Py.result (gmap Z spec_float) :=
  year_cell ← iloc df (Z.of_nat row_idx) 1;
  if isinstance_int_float year_cell && notna year_cell then
    year ← int year_cell;
    if (2008 <=? year) && (year <=? 2035) then
      val ← iloc df (Z.of_nat row_idx) col;
      if notna val && isinstance_int_float val then
        v ← float val;
        Ok (<[year := v]> result)
      else Ok result
    else Ok result
  else Ok result.

Definition _extract_annual_data (df : DataFrame) (col : Z)
  : Py.result (gmap Z spec_float) :=
  for_each (annual_row df col) (range (shape0 df)) ∅.

(** One turn of the loop of [_load_sheet_1_7]. *)
Definition load_metric (df : DataFrame) (self : OBRForecast) (item : string * Z)
  : result OBRForecast :=
  series ← _extract_annual_data df (snd item);
  Ok (set_data self (fst item) series).

Definition _load_sheet_1_7 (env : Env) (excel_path : string) (self : OBRForecast)
  : M OBRForecast :=
  fun w =>
    match pd_read_excel env excel_path "1.7" w with
    | inr e =>
        (_ ← print ("Warning: Could not load sheet 1.7: " +:+ e); mret self) w
    | inl df => lift (for_each (load_metric df) col_map self) w
    end.

Definition _load_sheet_1_6 (env : Env) (excel_path : string) (self : OBRForecast)
  : M OBRForecast :=
  fun w =>
    match pd_read_excel env excel_path "1.6" w with
    | inr e =>
        (_ ← print ("Warning: Could not load sheet 1.6: " +:+ e); mret self) w
    | inl df =>
        lift
          (col ← _find_column_by_header df (str "Average weekly earnings growth");
           col ← match col with
                 | None => _find_column_by_header df (str "Average earnings growth")
                 | Some _ => Ok col
                 end;
           match col with
           | Some c => load_metric df self ("average_earnings", Z.of_nat c)
           | None => Ok self
           end) w
    end.

Definition _load_sheet_1_16 (env : Env) (excel_path : string) (self : OBRForecast)
  : M OBRForecast :=
  fun w =>
    match pd_read_excel env excel_path "1.16" w with
    | inr e =>
        (_ ← print ("Warning: Could not load sheet 1.16: " +:+ e); mret self) w
    | inl df =>
        lift
          (col ← _find_column_by_header df (str "per cent change");
           match col with
           | Some c => load_metric df self ("house_prices", Z.of_nat c)
           | None => Ok self
           end) w
    end.

Definition _load_data (env : Env) (self : OBRForecast) : M OBRForecast :=
  excel_path ← _get_excel_path env self;
  self ← _load_sheet_1_7 env excel_path self;
  self ← _load_sheet_1_6 env excel_path self;
  _load_sheet_1_16 env excel_path self.

(** [OBRForecast(edition, cache_dir)]: an absent or empty [cache_dir] is the
    temporary directory. *)
(** [Path(cache_dir) if cache_dir else Path(tempfile.gettempdir())]: an absent
    or empty [cache_dir] is the temporary directory. *)
Definition cache_dir_of (env : Env) (cache_dir : option string) : string :=
  match cache_dir with
  | Some d => if String.eqb d "" then gettempdir env else d
  | None => gettempdir env
  end.

(** [OBRForecast(edition, cache_dir)] *)
Definition __init__ (env : Env) (edition : string) (cache_dir : option string)
  : M OBRForecast :=
  _load_data env (mkOBRForecast edition (cache_dir_of env cache_dir) ∅).

Definition get (self : OBRForecast) (metric : string) (year : Z) : option spec_float :=
  match _data self !! metric with
  | None => None
  | Some series => series !! year
  end.

(** A dict comprehension [{y: f(y) for y in years}]. *)
Definition dict_comp {V : Type} (f : Z -> V) (years : list Z) : gmap Z V :=
  fold_left (fun d y => <[y := f y]> d) years ∅.

Definition get_series (self : OBRForecast) (metric : string) (years : option (list Z))
  : gmap Z (option spec_float) :=
  let years := default default_years years in
  match _data self !! metric with
  | None => dict_comp (fun _ => None) years
  | Some series => dict_comp (fun y => series !! y) years
  end.

Definition compare_to (self other : OBRForecast) (metric : string)
    (years : option (list Z)) : result Table :=
  let years := default default_years years in
  let data := dict_display
                [(edition self, map (fun y => get self metric y) years);
                 (edition other, map (fun y => get other metric y) years)] in
  DataFrame_of_dict data years.

(** [list(self._data.keys())], up to the order of the keys. *)
Definition available_metrics (self : OBRForecast) : list string :=
  (map_to_list (_data self)).*1.

End OBR.
Import OBR.

(** * The vocabulary of the properties *)






(** Row-major order: an earlier row, or the same row and an earlier column. *)
Definition before (r' c' r c : nat) : Prop :=
  (r' < r)%nat \/ (r' = r /\ c' < c)%nat.

(** A cell the code takes for a number, one that passes
    [isinstance(x, (int, float))]: an [int] (a [bool] is one) or a [float]. *)
Inductive numeric : obj -> Prop :=
| numeric_int (n : Z) : numeric (PyInt n)
| numeric_bool (b : bool) : numeric (PyBool b)
| numeric_float (f : spec_float) : numeric (PyFloat f).

(** A missing cell: [None] or NaN. *)
Definition missing (x : obj) : Prop := x = PyNone \/ x = PyFloat nan.

(** Row [r] is an annual row for year [y]: its cell of column 1 is numeric,
    not missing, and truncates to [y] within 2008..2035. *)
Definition annual_year (df : DataFrame) (r : nat) (y : Z) : Prop :=
  exists yc, iloc df (Z.of_nat r) 1 = Ok yc /\ numeric yc /\ ~ missing yc
             /\ int yc = Ok y /\ 2008 <= y <= 2035.

(** Row [r] carries the value [v]: its cell of column [col] is numeric, not
    missing, and [v] as a float. *)
Definition annual_value (df : DataFrame) (col : Z) (r : nat) (v : spec_float) : Prop :=
  exists vc, iloc df (Z.of_nat r) col = Ok vc /\ numeric vc /\ ~ missing vc
             /\ float vc = Ok v.

(** Row [r] of the sheet qualifies, for year [y] with value [v]. *)
Definition qualifies (df : DataFrame) (col : Z) (r : nat) (y : Z) (v : spec_float)
  : Prop :=
  (r < shape0 df)%nat /\ annual_year df r y /\ annual_value df col r v.

(** The last qualifying row for year [y] carries [v]. *)
Definition last_qualifying (df : DataFrame) (col : Z) (y : Z) (v : spec_float) : Prop :=
  exists r, qualifies df col r y v
            /\ forall r' v', (r < r')%nat -> ~ qualifies df col r' y v'.

(** A year cell [int] accepts once it passed the guards. *)
Definition finite_year (x : obj) : bool :=
  match x with
  | PyFloat (S754_infinity _) => false
  | _ => true
  end.

(** A value cell [float] accepts once it passed the guards. *)
Definition double_sized (x : obj) : bool :=
  match x with
  | PyInt n => match float_of_int n with
               | Ok _ => true
               | Raise _ => false
               end
  | _ => true
  end.

(** A year cell that makes its row an annual row for the loop: it passes
    the guards and truncates into 2008..2035. *)
Definition annual (yc : obj) : bool :=
  isinstance_int_float yc && notna yc
  && match int yc with
     | Ok y => (2008 <=? y) && (y <=? 2035)
     | Raise _ => false
     end.

(** Row [r] can be read: its year cell is no infinite float and, if it makes
    the row an annual row, the sheet has the value column, with a value in
    that row that is no int beyond the doubles. *)
Definition row_reads (df : DataFrame) (col : Z) (r : nat) : bool :=
  finite_year (cell df r 1)
  && (negb (annual (cell df r 1))
      || match position col (shape1 df) with
         | Some j => double_sized (cell df r j)
         | None => false
         end).

(** The loop raises at no row: the sheet has no row, or it has column 1 and
    every row can be read. *)
Definition extractable (df : DataFrame) (col : Z) : bool :=
  (shape0 df =? 0)%nat
  || ((1 <? shape1 df)%nat && forallb (row_reads df col) (range (shape0 df))).

(** A cell that holds a number: an [int] (a [bool] is one), a [float], or a
    numpy integer. *)
Inductive number : obj -> Prop :=
| number_int (n : Z) : number (PyInt n)
| number_bool (b : bool) : number (PyBool b)
| number_float (f : spec_float) : number (PyFloat f)
| number_numpy (n : Z) : number (PyNumpyInt n).

(** Row [r] is to be recorded, for year [y] with value [v]: its cell of
    column 1 is a number, not missing, that truncates to [y] within
    2008..2035, and its cell of column [col] is a number, not missing, that
    is [v] as a float. *)
Definition recorded (df : DataFrame) (col : Z) (r : nat) (y : Z) (v : spec_float) : Prop :=
  (r < shape0 df)%nat
  /\ exists yc vc,
       iloc df (Z.of_nat r) 1 = Ok yc /\ number yc /\ ~ missing yc
       /\ int yc = Ok y /\ 2008 <= y <= 2035
       /\ iloc df (Z.of_nat r) col = Ok vc /\ number vc /\ ~ missing vc
       /\ float vc = Ok v.

(** The last row to be recorded for year [y] carries [v]. *)
Definition last_recorded (df : DataFrame) (col : Z) (y : Z) (v : spec_float) : Prop :=
  exists r, recorded df col r y v
            /\ forall r' v', (r < r')%nat -> ~ recorded df col r' y v'.

Definition is_numpy_int (x : obj) : bool :=
  match x with
  | PyNumpyInt _ => true
  | _ => false
  end.

(** Row [r] holds a year of 2008..2035 as a numpy integer, or is an annual
    row that holds its value as one. *)
Definition numpy_row (df : DataFrame) (col : Z) (r : nat) : bool :=
  match cell df r 1 with
  | PyNumpyInt n => (2008 <=? n) && (n <=? 2035)
  | yc => annual yc
          && match position col (shape1 df) with
             | Some j => is_numpy_int (cell df r j)
             | None => false
             end
  end.

(** Some row of the sheet does. *)
Definition numpy_annual (df : DataFrame) (col : Z) : bool :=
  (1 <? shape1 df)%nat && existsb (numpy_row df col) (range (shape0 df)).

(** The column [_find_column_by_header] finds, if any. *)
Definition found_column (df : DataFrame) (header_text : list Z) : option nat :=
  match _find_column_by_header df header_text with
  | Ok col => col
  | Raise _ => None
  end.

(** The columns the loader of [sheet] extracts from the sheet [df] it read,
    each with the metric it is stored under: the five of [col_map] for sheet
    1.7; for sheet 1.6 the column found for "Average weekly earnings growth"
    or, with none, for "Average earnings growth"; for sheet 1.16 the column
    found for "per cent change". *)
Definition extracted_columns (sheet : string) (df : DataFrame) : list (string * Z) :=
  if String.eqb sheet "1.7" then col_map
  else if String.eqb sheet "1.6" then
    match found_column df (str "Average weekly earnings growth") with
    | Some c => [("average_earnings", Z.of_nat c)]
    | None =>
        match found_column df (str "Average earnings growth") with
        | Some c => [("average_earnings", Z.of_nat c)]
        | None => []
        end
    end
  else if String.eqb sheet "1.16" then
    match found_column df (str "per cent change") with
    | Some c => [("house_prices", Z.of_nat c)]
    | None => []
    end
  else [].

(** The sheets the construction loads, in its order. *)
Definition loaded_sheets : list string := ["1.7"; "1.6"; "1.16"].

(** In the workbook at [path], [sheet] does not read, or every column its
    loader extracts from it is extractable. *)
Definition sheet_loads (env : Env) (path : string) (w : World) (sheet : string) : bool :=
  match pd_read_excel env path sheet w with
  | inr _ => true
  | inl df => forallb (fun item => extractable df (snd item)) (extracted_columns sheet df)
  end.

Definition loads_cleanly (env : Env) (path : string) (w : World) : bool :=
  forallb (sheet_loads env path w) loaded_sheets.

(** The line a loader prints for a sheet that does not read. *)
Definition warning (sheet msg : string) : string :=
  "Warning: Could not load sheet " +:+ sheet +:+ ": " +:+ msg.

(** The three loaders in one form: warn and hand the snapshot on, or store
    the series of the extracted columns in turn. *)
Definition load_sheet (env : Env) (path sheet : string) (self : OBRForecast)
  : M OBRForecast :=
  fun w =>
    match pd_read_excel env path sheet w with
    | inr msg => (Ok self, logged w (warning sheet msg))
    | inl df => (for_each (load_metric df) (extracted_columns sheet df) self, w)
    end.

Fixpoint load_each (env : Env) (path : string) (sheets : list string) (self : OBRForecast)
  : M OBRForecast :=
  match sheets with
  | [] => mret self
  | sheet :: sheets' =>
      self ← load_sheet env path sheet self;
      load_each env path sheets' self
  end.

(** The pair (metric, year) is present in the loaded data. *)
Definition loaded (self : OBRForecast) (metric : string) (year : Z) : Prop :=
  exists series v, _data self !! metric = Some series /\ series !! year = Some v.

(** * Sample sheets, snapshots and worlds *)

(** A sheet in the layout of the OBR tables: a header row, a quarterly row,
    then annual rows, among them one year given twice, a year as a float, a
    year out of range, a missing value, and two cells that are booleans. *)
Definition example_sheet : DataFrame :=
  mkDataFrame 3
    [ [PyStr (str "Table 1.7"); PyStr (str "Period"); PyStr (str "CPI")];
      [PyFloat nan; PyStr (str "2025Q1"); PyFloat (dbl 7 (-1))];
      [PyFloat nan; PyInt 2025; PyFloat (dbl 13 (-2))];
      [PyFloat nan; PyFloat (dbl 4053 (-1)); PyInt 2];
      [PyFloat nan; PyInt 2025; PyFloat (dbl 7 (-1))];
      [PyFloat nan; PyInt 2040; PyFloat (dbl 7 (-1))];
      [PyFloat nan; PyInt 2027; PyFloat nan];
      [PyFloat nan; PyBool true; PyFloat (dbl 7 (-1))];
      [PyFloat nan; PyInt 2028; PyBool true] ].

(** What the extraction makes of column 2 of it. *)
Definition example_series : gmap Z spec_float :=
  <[2028 := dbl 1 0]> (<[2026 := dbl 2 0]> (<[2025 := dbl 7 (-1)]> ∅)).

(** A sheet whose only header stands in its eleventh row. *)
Definition tall_sheet : DataFrame :=
  mkDataFrame 2 (repeat [PyFloat nan; PyFloat nan] 10 ++ [[PyFloat nan; PyStr (str "CPI")]]).

(** A sheet of three columns has no column 4 for the CPI series. *)
Definition narrow_sheet : DataFrame :=
  mkDataFrame 3
    [ [PyStr (str "Table 1.7"); PyStr (str "Period"); PyStr (str "RPI")];
      [PyFloat nan; PyInt 2025; PyFloat (dbl 7 (-1))] ].

(** Two editions, as they would stand after loading. *)
Definition november : OBRForecast :=
  mkOBRForecast "november-2025" "/tmp"
    (<["rpi" := <[2025 := dbl 17 (-2)]> ∅]> (<["cpi" := example_series]> ∅)).

Definition march : OBRForecast :=
  mkOBRForecast "march-2025" "/tmp" (<["cpi" := <[2025 := dbl 13 (-2)]> ∅]> ∅).

(** A process that has sent nothing, printed nothing, on an empty disk. *)
Definition fresh_world : World := mkWorld ∅ [] [].

(** A server that answers every request with the same workbook bytes. *)
Definition payload : bytes := [Byte.x50; Byte.x4b; Byte.x03; Byte.x04].

Definition online : Env :=
  mkEnv "/tmp" (fun _ _ => HTTPResponse 200 payload) (fun _ => true)
        (fun _ _ => WriteAll)
        (fun _ _ => inr "File is not a zip file").

(** A server that answers every request with status 503. *)
Definition unavailable : Env :=
  mkEnv "/tmp" (fun _ _ => HTTPResponse 503 []) (fun _ => true) (fun _ _ => WriteAll)
        (fun _ _ => inr "File is not a zip file").

(** Snapshots under construction, before any sheet is loaded. *)
Definition march_unloaded : OBRForecast := mkOBRForecast "march-2025" "/tmp" ∅.
Definition june_unloaded : OBRForecast := mkOBRForecast "june-2024" "/tmp" ∅.

(** A disk on which a file already stands at the cache path of the
    unregistered edition "june-2024". *)
Definition june_cached : World :=
  mkWorld (<["/tmp/obr_june-2024_economy.xlsx" := payload]> ∅) [] [].

(** The world after a first, successful fetch of "march-2025". *)
Definition march_fetched : World :=
  mkWorld (<["/tmp/obr_march-2025_economy.xlsx" := payload]> ∅)
          ["https://obr.uk/docs/dlm_uploads/Economy_Detailed_forecast_tables_March_2025.xlsx"]
          [].

(** The sheets 1.6 and 1.16 of a small workbook. *)
Definition sheet_1_6 : DataFrame :=
  mkDataFrame 3
    [ [PyFloat nan; PyStr (str "Period"); PyStr (str "Average weekly earnings growth (per cent)")];
      [PyFloat nan; PyStr (str "2025Q1"); PyFloat (dbl 21 (-2))];
      [PyFloat nan; PyInt 2025; PyFloat (dbl 5 0)];
      [PyFloat nan; PyInt 2026; PyFloat (dbl 13 (-2))] ].

Definition sheet_1_16 : DataFrame :=
  mkDataFrame 3
    [ [PyFloat nan; PyFloat nan; PyStr (str "House price index")];
      [PyFloat nan; PyStr (str "Period"); PyStr (str "(Per cent change on a year earlier)")];
      [PyFloat nan; PyInt 2025; PyFloat (dbl 11 (-2))] ].

(** Surroundings in which every workbook has these two sheets and lacks the
    sheet 1.7. *)
Definition without_1_7 : Env :=
  mkEnv "/tmp" (fun _ _ => HTTPResponse 200 payload) (fun _ => true)
        (fun _ _ => WriteAll)
        (fun _ sheet =>
           if String.eqb sheet "1.6" then inl sheet_1_6
           else if String.eqb sheet "1.16" then inl sheet_1_16
           else inr "Worksheet named 1.7 not found").

(** The snapshot and the world its construction ends with. *)
Definition march_without_1_7 : OBRForecast :=
  mkOBRForecast "march-2025" "/tmp"
    (<["house_prices" := <[2025 := dbl 11 (-2)]> ∅]>
       (<["average_earnings" := <[2026 := dbl 13 (-2)]> (<[2025 := dbl 5 0]> ∅)]> ∅)).

Definition march_warned : World :=
  logged march_fetched
         "Warning: Could not load sheet 1.7: Worksheet named 1.7 not found".

(** Surroundings in which every workbook lacks the sheet 1.7 and has a sheet
    1.6 of one column, the earnings header on top. *)
Definition earnings_only : DataFrame :=
  mkDataFrame 1 [ [PyStr (str "Average earnings growth")]; [PyInt 2025] ].

Definition without_1_7_narrow_1_6 : Env :=
  mkEnv "/tmp" (fun _ _ => HTTPResponse 200 payload) (fun _ => true)
        (fun _ _ => WriteAll)
        (fun _ sheet =>
           if String.eqb sheet "1.6" then inl earnings_only
           else if String.eqb sheet "1.16" then inl sheet_1_16
           else inr "Worksheet named 1.7 not found").

(** * Further vocabulary and samples *)

(** The world after some more printed lines. *)
Definition printed (w : World) (out : list string) : World :=
  mkWorld (files w) (requests w) (stdout w ++ out).

(** A method that reads the files and prints, and does nothing else: on two
    worlds with the same files it returns the same and prints the same. *)
Definition reads_only {A : Type} (m : M A) : Prop :=
  forall w w', files w' = files w ->
    exists r out, m w = (r, printed w out) /\ m w' = (r, printed w' out).

(** Two surroundings read workbooks alike and share a temporary directory;
    their servers and disks may differ. *)
Definition same_reader (env env' : Env) : Prop :=
  gettempdir env = gettempdir env'
  /\ forall content sheet, read_excel env content sheet = read_excel env' content sheet.

(** The column the earnings series is read from: the first header if the
    sheet has it, the second if not. *)
Definition earnings_column (df : DataFrame) (c : nat) : Prop :=
  _find_column_by_header df (str "Average weekly earnings growth") = Ok (Some c)
  \/ (_find_column_by_header df (str "Average weekly earnings growth") = Ok None
      /\ _find_column_by_header df (str "Average earnings growth") = Ok (Some c)).

(** The frame without its rows from the eleventh on. *)
Definition first_ten_rows (df : DataFrame) : DataFrame :=
  mkDataFrame (columns df) (take 10 (rows df)).

(** A sheet 1.7 in the layout of the OBR tables, nine columns wide. *)
Definition sheet_1_7 : DataFrame :=
  mkDataFrame 9
    [ [PyStr (str "Table 1.7"); PyStr (str "Period"); PyStr (str "RPI"); PyStr (str "RPIX"); PyStr (str "CPI");
       PyStr (str "CPIH"); PyStr (str "OOH"); PyStr (str "Mortgage interest"); PyStr (str "Rents")];
      [PyFloat nan; PyStr (str "2025Q1"); PyFloat (dbl 9 (-1)); PyFloat (dbl 9 (-1));
       PyFloat (dbl 7 (-1)); PyFloat (dbl 7 (-1)); PyFloat (dbl 5 0);
       PyFloat (dbl 11 0); PyFloat (dbl 6 0)];
      [PyFloat nan; PyInt 2025; PyFloat (dbl 17 (-2)); PyFloat (dbl 4 0);
       PyFloat (dbl 13 (-2)); PyFloat (dbl 7 (-1)); PyFloat (dbl 5 0);
       PyFloat (dbl 11 0); PyFloat (dbl 6 0)];
      [PyFloat nan; PyInt 2026; PyFloat (dbl 15 (-2)); PyFloat (dbl 3 0);
       PyFloat (dbl 5 (-1)); PyFloat (dbl 9 (-2)); PyFloat (dbl 4 0);
       PyFloat nan; PyFloat (dbl 5 0)] ].

(** Surroundings in which every workbook has the three sheets. *)
Definition complete : Env :=
  mkEnv "/tmp" (fun _ _ => HTTPResponse 200 payload) (fun _ => true)
        (fun _ _ => WriteAll)
        (fun _ sheet =>
           if String.eqb sheet "1.7" then inl sheet_1_7
           else if String.eqb sheet "1.6" then inl sheet_1_6
           else if String.eqb sheet "1.16" then inl sheet_1_16
           else inr "Worksheet not found").

(** The same workbooks behind a server that is down. *)
Definition complete_offline : Env :=
  mkEnv "/tmp" (fun _ _ => NoResponse) (fun _ => false) (fun _ _ => WriteFails 0)
        (read_excel complete).

(** The snapshot the construction makes of such a workbook. *)
Definition march_complete : OBRForecast :=
  mkOBRForecast "march-2025" "/tmp"
    (<["house_prices" := <[2025 := dbl 11 (-2)]> ∅]>
      (<["average_earnings" := <[2026 := dbl 13 (-2)]> (<[2025 := dbl 5 0]> ∅)]>
        (<["rent" := <[2026 := dbl 5 0]> (<[2025 := dbl 6 0]> ∅)]>
          (<["mortgage_interest" := <[2025 := dbl 11 0]> ∅]>
            (<["cpih" := <[2026 := dbl 9 (-2)]> (<[2025 := dbl 7 (-1)]> ∅)]>
              (<["cpi" := <[2026 := dbl 5 (-1)]> (<[2025 := dbl 13 (-2)]> ∅)]>
                (<["rpi" := <[2026 := dbl 15 (-2)]> (<[2025 := dbl 17 (-2)]> ∅)]>
                   ∅))))))).

(** The sample sheet with other text in its first column. *)
Definition example_sheet_relabelled : DataFrame :=
  mkDataFrame 3
    (map (fun row => match row with
                     | _ :: cells => PyStr (str "note") :: cells
                     | [] => []
                     end) (rows example_sheet)).

(** A sheet of one column. *)
Definition one_column : DataFrame := mkDataFrame 1 [ [PyStr (str "Period")]; [PyInt 2025] ].

(** A server that answers, and a disk that fills up after two bytes. *)
Definition disk_full : Env :=
  mkEnv "/tmp" (fun _ _ => HTTPResponse 200 payload) (fun _ => true)
        (fun _ _ => WriteFails 2) (fun _ _ => inr "File is not a zip file").

(** The world such a fetch of "march-2025" leaves. *)
Definition march_truncated : World :=
  mkWorld (<["/tmp/obr_march-2025_economy.xlsx" := [Byte.x50; Byte.x4b]]> ∅)
          ["https://obr.uk/docs/dlm_uploads/Economy_Detailed_forecast_tables_March_2025.xlsx"]
          [].

(** A sheet whose header row holds an int beyond the doubles in the value
    column, and a sheet whose years are numpy integers. *)
Definition big_header_sheet : DataFrame :=
  mkDataFrame 3
    [ [PyStr (str "Table 1.7"); PyStr (str "Period"); PyInt (2 ^ 1024)];
      [PyFloat nan; PyInt 2025; PyFloat (dbl 7 (-1))] ].

Definition numpy_years_sheet : DataFrame :=
  mkDataFrame 3
    [ [PyFloat nan; PyNumpyInt 2025; PyFloat (dbl 7 (-1))];
      [PyFloat nan; PyNumpyInt 2026; PyFloat (dbl 2 0)] ].

(** * Properties *)

(** ** Strings *)

Section Strings.



End Strings.

(** ** Numbers *)

Section Numbers.

(** [int] of a float with a fractional part drops it: the quotient of the
    signed mantissa by the power of two, rounded towards zero. *)
Lemma int_of_float_truncates (s : bool) (m : positive) (e : Z) :
  e < 0 ->
  int_of_float (S754_finite s m e)
  = Ok (Z.quot (if s then Z.neg m else Z.pos m) (2 ^ (- e))).
Proof.
  intros He. unfold int_of_float. f_equal.
  assert (Z.shiftl (Z.pos m) e = Z.pos m / 2 ^ (- e)) as ->.
  { replace e with (- (- e)) at 1 by lia.
    rewrite Z.shiftl_opp_r. apply Z.shiftr_div_pow2. lia. }
  assert (0 < 2 ^ (- e)) as Hpow by (apply Z.pow_pos_nonneg; lia).
  rewrite <- Z.quot_div_nonneg by lia.
  destruct s; [|reflexivity].
  change (Z.neg m) with (- Z.pos m). rewrite Z.quot_opp_l by lia. reflexivity.
Qed.

Example int_truncates_towards_zero :
  int (PyFloat (dbl 4053 (-1))) = Ok 2026 /\ int (PyFloat (dbl (-4053) (-1))) = Ok (-2026).
Proof. split; reflexivity. Qed.

Example float_of_int_examples :
  float_of_int 2 = Ok (dbl 1 1)
  /\ float_of_int (2 ^ 53 + 1) = Ok (dbl 1 53)
  /\ float_of_int (2 ^ 1024) = Raise OverflowError.
Proof. split; [|split]; reflexivity. Qed.

End Numbers.

(** ** Positional indexing *)

Section Indexing.

Lemma position_of_nat (i n : nat) : (i < n)%nat -> position (Z.of_nat i) n = Some i.
Proof.
  intros H. unfold position.
  destruct (Z.leb_spec 0 (Z.of_nat i)); [|lia].
  destruct (Z.ltb_spec (Z.of_nat i) (Z.of_nat n)); [|lia].
  simpl. now rewrite Nat2Z.id.
Qed.

Lemma position_bound (i : Z) (n j : nat) : position i n = Some j -> (j < n)%nat.
Proof.
  unfold position.
  destruct (Z.leb_spec 0 i), (Z.ltb_spec i (Z.of_nat n)); simpl;
    try (intros [= <-]; lia);
    destruct (Z.leb_spec (- Z.of_nat n) i), (Z.ltb_spec i 0); simpl;
    try discriminate; intros [= <-]; lia.
Qed.

(** Inside the shape [iloc] returns the cell. *)
Lemma iloc_in_shape (df : DataFrame) (r c : nat) :
  (r < shape0 df)%nat -> (c < shape1 df)%nat ->
  iloc df (Z.of_nat r) (Z.of_nat c) = Ok (cell df r c).
Proof.
  intros Hr Hc. unfold iloc. now rewrite !position_of_nat.
Qed.

(** [iloc] returns only cells inside the shape. *)
Lemma iloc_Ok (df : DataFrame) (r c : Z) (x : obj) :
  iloc df r c = Ok x ->
  exists i j, position r (shape0 df) = Some i /\ position c (shape1 df) = Some j
              /\ x = cell df i j.
Proof.
  unfold iloc.
  destruct (position r (shape0 df)) as [i|], (position c (shape1 df)) as [j|];
    try discriminate.
  intros [= <-]. eauto.
Qed.

End Indexing.

(** ** The sheet locator: [_find_column_by_header] *)

Section Locator.



Lemma isinstance_str_header_in (header_text : list Z) (c : obj) :
  isinstance_str c && header_in header_text c = header_in header_text c.
Proof. now destruct c. Qed.

Lemma find_seq_Some (P : nat -> bool) (a m c : nat) :
  List.find P (seq a m) = Some c ->
  (a <= c < a + m)%nat /\ P c = true /\ forall c', (a <= c' < c)%nat -> P c' = false.
Proof.
  revert a. induction m as [|m IH]; intros a; simpl; [discriminate|].
  destruct (P a) eqn:E.
  - intros [= <-]. split; [lia|]. split; [assumption|]. intros c' Hc'. lia.
  - intros H. apply IH in H as (Hb & HP & Hmin).
    split; [lia|]. split; [assumption|]. intros c' Hc'.
    destruct (Nat.eq_dec c' a) as [->|Hne]; [assumption|].
    apply Hmin. lia.
Qed.

Lemma find_seq_None (P : nat -> bool) (a m : nat) :
  List.find P (seq a m) = None -> forall c, (a <= c < a + m)%nat -> P c = false.
Proof.
  revert a. induction m as [|m IH]; intros a; simpl; [intros _ c Hc; lia|].
  destruct (P a) eqn:E; [discriminate|].
  intros H c Hc. destruct (Nat.eq_dec c a) as [->|Hne]; [assumption|].
  apply (IH _ H). lia.
Qed.

(** The inner loop is a search for the first matching column. *)
Lemma find_in_row_find (df : DataFrame) (header_text : list Z) (r : nat)
    (cols : list nat) :
  (r < shape0 df)%nat -> Forall (fun c => (c < shape1 df)%nat) cols ->
  find_in_row df header_text r cols
  = Ok (List.find (fun c => header_in header_text (cell df r c)) cols).
Proof.
  intros Hr. induction 1 as [|c cols Hc _ IH]; simpl; [reflexivity|].
  rewrite iloc_in_shape by assumption. simpl.
  rewrite isinstance_str_header_in.
  destruct (header_in header_text (cell df r c)); [reflexivity | exact IH].
Qed.

Lemma range_in_shape (n : nat) : Forall (fun c => (c < n)%nat) (range n).
Proof. apply List.Forall_forall. intros c Hc. apply in_seq in Hc. lia. Qed.

(** The outer loop over the rows [a, a + n): the first match in row-major
    order, or none. *)
Lemma find_in_rows_seq (df : DataFrame) (header_text : list Z) (a n : nat) :
  (a + n <= shape0 df)%nat ->
  match find_in_rows df header_text (seq a n) with
  | Ok (Some c) =>
      exists r, (a <= r < a + n)%nat /\ (c < shape1 df)%nat
        /\ header_in header_text (cell df r c) = true
        /\ forall r' c', (a <= r')%nat -> (c' < shape1 df)%nat -> before r' c' r c ->
                         header_in header_text (cell df r' c') = false
  | Ok None =>
      forall r c, (a <= r < a + n)%nat -> (c < shape1 df)%nat ->
                  header_in header_text (cell df r c) = false
  | Raise _ => False
  end.
Proof.
  revert a. induction n as [|n IH]; intros a Hn; simpl.
  - intros r c Hr. lia.
  - rewrite find_in_row_find by (auto using range_in_shape; lia). simpl.
    destruct (List.find _ (range (shape1 df))) as [c|] eqn:E.
    + apply find_seq_Some in E as (Hb & HP & Hmin).
      exists a. split; [lia|]. split; [lia|]. split; [assumption|].
      intros r' c' Hr' Hc' [Hlt | [-> Hlt]]; [lia|].
      apply Hmin. lia.
    + pose proof (find_seq_None _ _ _ E) as Hrow.
      specialize (IH (S a) ltac:(lia)).
      destruct (find_in_rows df header_text (seq (S a) n)) as [[c|]|e]; [| |assumption].
      * destruct IH as (r & Hr & Hc & HP & Hmin).
        exists r. split; [lia|]. split; [assumption|]. split; [assumption|].
        intros r' c' Hr' Hc' Hbefore.
        destruct (Nat.eq_dec r' a) as [->|Hne]; [apply Hrow; lia|].
        apply Hmin; [lia | assumption | assumption].
      * intros r c Hr Hc.
        destruct (Nat.eq_dec r a) as [->|Hne]; [apply Hrow; lia|].
        apply IH; [lia | assumption].
Qed.

(** The header search never raises. *)
Lemma find_column_never_raises (df : DataFrame) (header_text : list Z) (e : exn) :
  _find_column_by_header df header_text <> Raise e.
Proof.
  unfold _find_column_by_header, range. intros H.
  pose proof (find_in_rows_seq df header_text 0 (Nat.min 10 (shape0 df)) ltac:(lia)) as Hs.
  now rewrite H in Hs.
Qed.







(** [str.lower] beyond the ASCII range: the Kelvin sign goes to k, capital I
    with a dot above to i and a combining dot, and capital sigma to the final
    sigma at the end of a word only. *)
Example lower_examples :
  lower [8490] = str "k"
  /\ lower [304] = [105; 775]
  /\ lower [913; 931] = [945; 962]
  /\ lower [931; 913] = [963; 945]
  /\ lower (str "Per Cent CHANGE") = str "per cent change".
Proof. repeat split; reflexivity. Qed.

(** A cell that spells its K with the Kelvin sign matches the header all
    the same. *)
Example find_column_kelvin :
  _find_column_by_header (mkDataFrame 2 [ [PyFloat nan; PyStr [8490; 80; 73]] ]) (str "kpi")
  = Ok (Some 1%nat).
Proof. reflexivity. Qed.

(** The search is case-insensitive, takes the first match in row-major
    order, and stops after the tenth row. *)
Example find_column_examples :
  _find_column_by_header sheet_1_16 (str "per cent change") = Ok (Some 2%nat)
  /\ _find_column_by_header sheet_1_16 (str "PERIOD") = Ok (Some 1%nat)
  /\ _find_column_by_header sheet_1_16 (str "") = Ok (Some 2%nat)
  /\ _find_column_by_header sheet_1_16 (str "earnings") = Ok None
  /\ _find_column_by_header tall_sheet (str "cpi") = Ok None.
Proof. repeat split; reflexivity. Qed.

End Locator.

(** ** The annual series extractor: [_extract_annual_data] *)

Section Extractor.

Lemma numeric_present (x : obj) :
  isinstance_int_float x && notna x = true <-> numeric x /\ ~ missing x.
Proof.
  unfold missing, nan. destruct x as [s|n|b|f|i64| |]; simpl.
  - split; [discriminate | intros [H _]; inversion H].
  - split; [intros _; split; [constructor | intros [H|H]; discriminate] | reflexivity].
  - split; [intros _; split; [constructor | intros [H|H]; discriminate] | reflexivity].
  - destruct f; simpl;
      try (split; [intros _; split; [constructor | intros [H|H]; discriminate]
                  | reflexivity]).
    split; [discriminate | intros [_ H]; exfalso; apply H; now right].
  - split; [discriminate | intros [H _]; inversion H].
  - split; [discriminate | intros [H _]; inversion H].
  - split; [discriminate | intros [H _]; inversion H].
Qed.

Lemma present_numeric (x : obj) :
  notna x && isinstance_int_float x = true <-> numeric x /\ ~ missing x.
Proof. rewrite andb_comm. apply numeric_present. Qed.

Lemma for_each_app {S A : Type} (body : S -> A -> result S) (xs ys : list A) (acc : S) :
  for_each body (xs ++ ys) acc
  = match for_each body xs acc with
    | Ok acc' => for_each body ys acc'
    | Raise e => Raise e
    end.
Proof.
  revert acc. induction xs as [|x xs IH]; intros acc; simpl; [reflexivity|].
  destruct (body acc x); [apply IH | reflexivity].
Qed.

(** A row qualifies for at most one year and one value. *)
Lemma qualifies_functional (df : DataFrame) (col : Z) (r : nat) (y y' : Z)
    (v v' : spec_float) :
  qualifies df col r y v -> qualifies df col r y' v' -> y = y' /\ v = v'.
Proof.
  intros (_ & (yc & Hy & _ & _ & Hi & _) & (vc & Hv & _ & _ & Hf))
         (_ & (yc' & Hy' & _ & _ & Hi' & _) & (vc' & Hv' & _ & _ & Hf')).
  split; congruence.
Qed.

(** One turn of the loop: the row qualifies and its pair is stored, or it
    does not and the mapping is left as it was. *)
Lemma annual_row_Ok (df : DataFrame) (col : Z) (acc acc' : gmap Z spec_float) (r : nat) :
  (r < shape0 df)%nat ->
  annual_row df col acc r = Ok acc' ->
  (exists y v, qualifies df col r y v /\ acc' = <[y := v]> acc)
  \/ ((forall y v, ~ qualifies df col r y v) /\ acc' = acc).
Proof.
  intros Hr. unfold annual_row.
  destruct (iloc df (Z.of_nat r) 1) as [yc|e] eqn:Hy; simpl; [|discriminate].
  destruct (isinstance_int_float yc && notna yc) eqn:Hyn.
  2:{ intros [= <-]. right. split; [|reflexivity].
      intros y v (_ & (yc' & Hy' & Hn & Hm & _) & _).
      assert (yc' = yc) as -> by congruence.
      assert (isinstance_int_float yc && notna yc = true)
        by (apply numeric_present; auto).
      congruence. }
  apply numeric_present in Hyn as [Hnum Hmiss].
  destruct (int yc) as [y|e] eqn:Hi; simpl; [|discriminate].
  destruct ((2008 <=? y) && (y <=? 2035)) eqn:Hrange.
  2:{ intros [= <-]. right. split; [|reflexivity].
      intros y' v (_ & (yc' & Hy' & _ & _ & Hi' & Hb) & _).
      assert (yc' = yc) as -> by congruence.
      assert (y' = y) as -> by congruence.
      apply andb_false_iff in Hrange as [H|H];
        [apply Z.leb_gt in H | apply Z.leb_gt in H]; lia. }
  apply andb_true_iff in Hrange as [Hlo Hhi].
  apply Z.leb_le in Hlo, Hhi.
  assert (annual_year df r y) as Hyear by (exists yc; split_and!; assumption).
  destruct (iloc df (Z.of_nat r) col) as [vc|e] eqn:Hv; simpl; [|discriminate].
  destruct (notna vc && isinstance_int_float vc) eqn:Hvn.
  2:{ intros [= <-]. right. split; [|reflexivity].
      intros y' v (_ & _ & (vc' & Hv' & Hn & Hm & _)).
      assert (vc' = vc) as -> by congruence.
      assert (notna vc && isinstance_int_float vc = true)
        by (apply present_numeric; auto).
      congruence. }
  apply present_numeric in Hvn as [Hvnum Hvmiss].
  destruct (float vc) as [v|e] eqn:Hf; simpl; [|discriminate].
  intros [= <-]. left. exists y, v. split; [|reflexivity].
  split; [assumption|]. split; [assumption|]. exists vc. split_and!; assumption.
Qed.

(** After the rows below [k], the mapping holds for each year the value of
    the last qualifying row below [k]. *)
Lemma extract_prefix (df : DataFrame) (col : Z) (k : nat) (d : gmap Z spec_float) :
  (k <= shape0 df)%nat ->
  for_each (annual_row df col) (seq 0 k) ∅ = Ok d ->
  forall y v,
    d !! y = Some v
    <-> exists r, (r < k)%nat /\ qualifies df col r y v
                  /\ forall r' v', (r < r' < k)%nat -> ~ qualifies df col r' y v'.
Proof.
  revert d. induction k as [|k IH]; intros d Hk.
  - simpl. intros [= <-] y v. rewrite lookup_empty.
    split; [discriminate | intros (r & Hr & _); lia].
  - rewrite seq_S, for_each_app. simpl.
    destruct (for_each (annual_row df col) (seq 0 k) ∅) as [dk|e] eqn:Hdk;
      [|discriminate].
    specialize (IH dk ltac:(lia) eq_refl).
    destruct (annual_row df col dk k) as [d'|e] eqn:Hrow; [|discriminate].
    intros [= <-] y v.
    apply annual_row_Ok in Hrow; [|lia].
    destruct Hrow as [(y0 & v0 & Hq & ->) | (Hnone & ->)].
    + destruct (decide (y0 = y)) as [->|Hne].
      * rewrite lookup_insert_eq. split.
        -- intros [= <-]. exists k. split; [lia|]. split; [assumption|].
           intros r' v' Hr'. lia.
        -- intros (r & Hr & Hqr & Hlast).
           destruct (Nat.eq_dec r k) as [->|Hrk].
           ++ f_equal. symmetry. eapply qualifies_functional; eassumption.
           ++ exfalso. apply (Hlast k v0); [lia | assumption].
      * rewrite lookup_insert_ne by assumption. rewrite IH. split.
        -- intros (r & Hr & Hqr & Hlast). exists r. split; [lia|].
           split; [assumption|]. intros r' v' Hr' Hq'.
           destruct (Nat.eq_dec r' k) as [->|Hrk].
           ++ apply Hne. eapply qualifies_functional; eassumption.
           ++ apply (Hlast r' v'); [lia | assumption].
        -- intros (r & Hr & Hqr & Hlast).
           destruct (Nat.eq_dec r k) as [->|Hrk].
           ++ exfalso. apply Hne. eapply qualifies_functional; eassumption.
           ++ exists r. split; [lia|]. split; [assumption|].
              intros r' v' Hr'. apply Hlast. lia.
    + rewrite IH. split.
      * intros (r & Hr & Hqr & Hlast). exists r. split; [lia|].
        split; [assumption|]. intros r' v' Hr' Hq'.
        destruct (Nat.eq_dec r' k) as [->|Hrk]; [now apply (Hnone y v')|].
        apply (Hlast r' v'); [lia | assumption].
      * intros (r & Hr & Hqr & Hlast).
        destruct (Nat.eq_dec r k) as [->|Hrk]; [now apply Hnone in Hqr|].
        exists r. split; [lia|]. split; [assumption|].
        intros r' v' Hr'. apply Hlast. lia.
Qed.

(** Whenever the extraction returns, it returns the last qualifying row's
    value for each year, and nothing else. *)
Lemma extract_returns (df : DataFrame) (col : Z) (d : gmap Z spec_float) :
  _extract_annual_data df col = Ok d ->
  forall y v, d !! y = Some v <-> last_qualifying df col y v.
Proof.
  intros H y v. unfold _extract_annual_data, range in H.
  rewrite (extract_prefix df col (shape0 df) d (le_n _) H y v).
  unfold last_qualifying. split.
  - intros (r & Hr & Hq & Hlast). exists r. split; [assumption|].
    intros r' v' Hr' Hq'. apply (Hlast r' v'); [|assumption].
    destruct Hq' as [Hb _]. lia.
  - intros (r & Hq & Hlast). exists r. split; [apply Hq|]. split; [assumption|].
    intros r' v' Hr'. apply Hlast. lia.
Qed.

(** The guards leave [int] only an infinite float to refuse. *)
Lemma int_guarded (x : obj) :
  isinstance_int_float x && notna x = true -> finite_year x = true ->
  exists y, int x = Ok y.
Proof.
  destruct x as [s|n|b|f|i64| |]; simpl; try discriminate; eauto.
  destruct f; simpl; try discriminate; eauto.
Qed.

(** The guards leave [float] only an oversized int to refuse. *)
Lemma float_guarded (x : obj) :
  notna x && isinstance_int_float x = true -> double_sized x = true ->
  exists v, float x = Ok v.
Proof.
  destruct x as [s|n|b|f|i64| |]; simpl; try discriminate; eauto.
  - destruct (float_of_int n); [eauto | discriminate].
  - destruct b; vm_compute; eauto.
Qed.

(** Inside the shape the loop reads the year cell, and the value cell where
    the value column is. *)
Lemma iloc_year (df : DataFrame) (r : nat) :
  (r < shape0 df)%nat -> (1 < shape1 df)%nat ->
  iloc df (Z.of_nat r) 1 = Ok (cell df r 1).
Proof. intros Hr Hw. exact (iloc_in_shape df r 1 Hr Hw). Qed.

Lemma iloc_value (df : DataFrame) (col : Z) (r : nat) :
  (r < shape0 df)%nat ->
  iloc df (Z.of_nat r) col
  = match position col (shape1 df) with
    | Some j => Ok (cell df r j)
    | None => Raise IndexError
    end.
Proof. intros Hr. unfold iloc. now rewrite position_of_nat. Qed.

Lemma position_1 (n : nat) :
  position 1 n = if (1 <? n)%nat then Some 1%nat else None.
Proof.
  unfold position. destruct (Nat.ltb_spec 1 n).
  - destruct (Z.ltb_spec 1 (Z.of_nat n)); [reflexivity | lia].
  - destruct (Z.ltb_spec 1 (Z.of_nat n)); [lia|]. simpl.
    now destruct (Z.leb_spec (- Z.of_nat n) 1).
Qed.

(** One turn of the loop returns exactly when the row meets that condition. *)
Lemma annual_row_reads (df : DataFrame) (col : Z) (acc : gmap Z spec_float) (r : nat) :
  (r < shape0 df)%nat -> (1 < shape1 df)%nat ->
  if row_reads df col r
  then exists acc', annual_row df col acc r = Ok acc'
  else exists e, annual_row df col acc r = Raise e.
Proof.
  intros Hr Hw. unfold annual_row, row_reads, annual.
  rewrite (iloc_year df r Hr Hw), (iloc_value df col r Hr). simpl.
  destruct (isinstance_int_float (cell df r 1) && notna (cell df r 1)) eqn:Hg; simpl.
  2:{ assert (finite_year (cell df r 1) = true) as ->; [|simpl; eauto].
      destruct (cell df r 1) as [s|n|b|f|i64| |]; try reflexivity.
      destruct f; try reflexivity; discriminate. }
  destruct (finite_year (cell df r 1)) eqn:Hfin; simpl.
  2:{ destruct (cell df r 1) as [s|n|b|f|i64| |]; try discriminate.
      destruct f; try discriminate. simpl. eauto. }
  destruct (int_guarded _ Hg Hfin) as [y ->]. simpl.
  destruct ((2008 <=? y) && (y <=? 2035)); simpl; [|eauto].
  destruct (position col (shape1 df)) as [j|]; simpl; [|eauto].
  destruct (notna (cell df r j) && isinstance_int_float (cell df r j)) eqn:Hgv.
  - destruct (double_sized (cell df r j)) eqn:Hds.
    + destruct (float_guarded _ Hgv Hds) as [v ->]. simpl. eauto.
    + destruct (cell df r j) as [s|n|b|f|i64| |]; try discriminate.
      simpl in *. destruct (float_of_int n); [discriminate | eauto].
  - assert (double_sized (cell df r j) = true) as ->; [|eauto].
    destruct (cell df r j) as [s|n|b|f|i64| |]; try reflexivity. discriminate.
Qed.

(** The loop returns exactly when every row it visits meets the condition. *)
Lemma for_each_reads (df : DataFrame) (col : Z) (rs : list nat) (acc : gmap Z spec_float) :
  (1 < shape1 df)%nat -> Forall (fun r => (r < shape0 df)%nat) rs ->
  if forallb (row_reads df col) rs
  then exists d, for_each (annual_row df col) rs acc = Ok d
  else exists e, for_each (annual_row df col) rs acc = Raise e.
Proof.
  intros Hw Hrs. revert acc. induction Hrs as [|r rs Hr _ IH]; intros acc; simpl; [eauto|].
  pose proof (annual_row_reads df col acc r Hr Hw) as Hrow.
  destruct (row_reads df col r); simpl.
  - destruct Hrow as [acc' ->]. apply IH.
  - destruct Hrow as [e ->]. eauto.
Qed.

(** [extractable] says exactly when the extraction returns. *)
Lemma extractable_returns (df : DataFrame) (col : Z) :
  if extractable df col
  then exists d, _extract_annual_data df col = Ok d
  else exists e, _extract_annual_data df col = Raise e.
Proof.
  unfold extractable, _extract_annual_data.
  destruct (Nat.eqb_spec (shape0 df) 0) as [->|Hrows]; simpl; [eauto|].
  destruct (Nat.ltb_spec 1 (shape1 df)) as [Hw|Hw]; simpl.
  - exact (for_each_reads df col (range (shape0 df)) ∅ Hw (range_in_shape _)).
  - unfold range. destruct (shape0 df) as [|n] eqn:E; [lia|]. simpl.
    unfold annual_row, iloc. rewrite position_1.
    destruct (Nat.ltb_spec 1 (shape1 df)); [lia|].
    destruct (position (Z.of_nat 0) (shape0 df)); simpl; eauto.
Qed.

Lemma number_numeric (x : obj) : number x -> is_numpy_int x = false -> numeric x.
Proof. intros [n|b|f|n]; simpl; [constructor.. | discriminate]. Qed.

Lemma numeric_number (x : obj) : numeric x -> number x.
Proof. intros [n|b|f]; constructor. Qed.

(** Where no annual row holds its year or its value as a numpy integer, the
    rows to be recorded are the rows the code qualifies. *)
Lemma recorded_qualifies (df : DataFrame) (col : Z) (r : nat) (y : Z) (v : spec_float) :
  numpy_annual df col = false ->
  recorded df col r y v <-> qualifies df col r y v.
Proof.
  intros Hnp. split.
  - intros (Hr & yc & vc & Hy & Hny & Hmy & Hi & Hw & Hv & Hnv & Hmv & Hf).
    assert (1 < shape1 df)%nat as Hcols.
    { apply iloc_Ok in Hy as (i & j & _ & Hj & _). rewrite position_1 in Hj.
      destruct (Nat.ltb_spec 1 (shape1 df)); [assumption | discriminate]. }
    assert (numpy_row df col r = false) as Hrow.
    { unfold numpy_annual in Hnp. apply andb_false_iff in Hnp as [Hnp|Hnp].
      - apply Nat.ltb_ge in Hnp. lia.
      - destruct (numpy_row df col r) eqn:E; [|reflexivity].
        assert (existsb (numpy_row df col) (range (shape0 df)) = true); [|congruence].
        apply existsb_exists. exists r. split; [apply in_seq; lia | exact E]. }
    rewrite (iloc_year df r Hr Hcols) in Hy. injection Hy as <-.
    rewrite (iloc_value df col r Hr) in Hv.
    destruct (position col (shape1 df)) as [j|] eqn:Hj; [|discriminate].
    injection Hv as <-.
    assert (is_numpy_int (cell df r 1) = false) as Hpy.
    { destruct (cell df r 1) as [s|n|b|f|i64| |] eqn:E; try reflexivity.
      unfold numpy_row in Hrow. rewrite E in Hrow. simpl in Hi. injection Hi as ->.
      destruct (Z.leb_spec 2008 y), (Z.leb_spec y 2035); simpl in Hrow; lia || discriminate. }
    pose proof (number_numeric _ Hny Hpy) as Hnumy.
    assert (annual (cell df r 1) = true) as Hann.
    { unfold annual. rewrite (proj2 (numeric_present _) (conj Hnumy Hmy)), Hi. simpl.
      destruct (Z.leb_spec 2008 y), (Z.leb_spec y 2035); simpl; lia || reflexivity. }
    assert (is_numpy_int (cell df r j) = false) as Hpv.
    { unfold numpy_row in Hrow. rewrite Hj in Hrow.
      destruct (cell df r 1); try discriminate Hpy; rewrite Hann in Hrow; exact Hrow. }
    split; [exact Hr|]. split.
    + exists (cell df r 1). rewrite (iloc_year df r Hr Hcols). split_and!; auto; lia.
    + exists (cell df r j). rewrite (iloc_value df col r Hr), Hj.
      split_and!; auto using number_numeric.
  - intros (Hr & (yc & Hy & Hny & Hmy & Hi & Hw) & (vc & Hv & Hnv & Hmv & Hf)).
    split; [exact Hr|]. exists yc, vc. split_and!; auto using numeric_number; lia.
Qed.

Lemma last_recorded_qualifying (df : DataFrame) (col : Z) (y : Z) (v : spec_float) :
  numpy_annual df col = false ->
  last_recorded df col y v <-> last_qualifying df col y v.
Proof.
  intros Hnp. unfold last_recorded, last_qualifying. split.
  - intros (r & Hrec & Hlast). exists r. split; [now apply recorded_qualifies|].
    intros r' v' Hr' Hq. apply (Hlast r' v' Hr'). now apply recorded_qualifies.
  - intros (r & Hq & Hlast). exists r. split; [now apply recorded_qualifies|].
    intros r' v' Hr' Hrec. apply (Hlast r' v' Hr'). now apply recorded_qualifies in Hrec.
Qed.

Example extract_example : _extract_annual_data example_sheet 2 = Ok example_series.
Proof. vm_compute. reflexivity. Qed.

(** C4, as stated, fails: on a sheet that has no column 4, asked for
    column 4, the annual row for 2025 is not skipped; reading its value cell
    raises [IndexError]. *)
Lemma extract_narrow_sheet_raises :
  _extract_annual_data narrow_sheet 4 = Raise IndexError.
Proof. reflexivity. Qed.

(** An infinite year cell is not skipped either: [int] raises. *)
Example extract_infinite_year_raises :
  _extract_annual_data
    (mkDataFrame 3 [ [PyFloat nan; PyFloat (S754_infinity false); PyInt 1] ]) 2
  = Raise OverflowError.
Proof. reflexivity. Qed.

(** Nor is an annual row whose value is an int beyond the doubles: [float]
    raises. *)
Example extract_oversized_value_raises :
  _extract_annual_data
    (mkDataFrame 3 [ [PyStr (str "Table 1.7"); PyStr (str "Period"); PyStr (str "RPI")];
                     [PyFloat nan; PyInt 2025; PyInt (2 ^ 1024)] ]) 2
  = Raise OverflowError.
Proof. reflexivity. Qed.

(** A header row may hold what it likes in the value column: the loop never
    reads it. *)
Example extract_big_header :
  extractable big_header_sheet 2 = true
  /\ _extract_annual_data big_header_sheet 2 = Ok (<[2025 := dbl 7 (-1)]> ∅).
Proof. split; reflexivity. Qed.

(** Years that are numpy integers pass for no [int]: the loop skips their
    rows. *)
Example extract_numpy_years :
  numpy_annual numpy_years_sheet 2 = true
  /\ _extract_annual_data numpy_years_sheet 2 = Ok ∅.
Proof. split; reflexivity. Qed.

(** C4, amended. Take a sheet in which no row holds a year of 2008..2035 as
    a numpy integer, and no annual row its value as one. The extraction
    returns exactly when the sheet has no row, or has column 1, no year cell
    that is an infinite float, and, for every row whose year cell passes the
    guards and truncates into 2008..2035, the value column, with a value
    that is no int beyond the doubles; it raises otherwise. When it returns,
    it maps a year to a value exactly when the last row (in scan order) to
    be recorded for that year carries that value: a row is to be recorded
    when its year cell is a number, not missing, that truncates into
    2008..2035, and its value cell is a number and not missing; every other
    row is skipped. *)
Theorem extract_annual_spec (df : DataFrame) (col : Z) :
  numpy_annual df col = false ->
  if extractable df col
  then exists d, _extract_annual_data df col = Ok d
                 /\ forall y v, d !! y = Some v <-> last_recorded df col y v
  else exists e, _extract_annual_data df col = Raise e.
Proof.
  intros Hnp. pose proof (extractable_returns df col) as H.
  destruct (extractable df col); [|exact H].
  destruct H as [d Hd]. exists d. split; [exact Hd|].
  intros y v. rewrite (last_recorded_qualifying df col y v Hnp).
  now apply extract_returns.
Qed.

Lemma extract_annual_spec_witness :
  numpy_annual example_sheet 2 = false
  /\ if extractable example_sheet 2
     then exists d, _extract_annual_data example_sheet 2 = Ok d
                    /\ forall y v, d !! y = Some v <-> last_recorded example_sheet 2 y v
     else exists e, _extract_annual_data example_sheet 2 = Raise e.
Proof. split; [reflexivity | apply (extract_annual_spec example_sheet 2); reflexivity]. Defined.

(** C5. The years of the mapping [_extract_annual_data] returns all lie in
    2008..2035, whatever the sheet and the value column. *)
Theorem extract_keys_in_range (df : DataFrame) (col : Z) (d : gmap Z spec_float) :
  _extract_annual_data df col = Ok d ->
  forall y, y ∈ dom d -> 2008 <= y <= 2035.
Proof.
  intros H y Hy. apply elem_of_dom in Hy as [v Hv].
  apply (extract_returns df col d H) in Hv as (r & (_ & (yc & Hyear) & _) & _).
  apply Hyear.
Qed.

Lemma extract_keys_in_range_witness :
  _extract_annual_data example_sheet 2 = Ok example_series
  /\ 2026 ∈ dom example_series
  /\ 2008 <= 2026 <= 2035.
Proof.
  assert (2026 ∈ dom example_series) as Hin by (apply elem_of_dom; eexists; reflexivity).
  split; [exact extract_example|]. split; [exact Hin|].
  exact (extract_keys_in_range example_sheet 2 example_series extract_example 2026 Hin).
Defined.

End Extractor.

(** ** The forecast accessor: [get], [get_series], [compare_to] *)

Section Accessor.

Lemma fold_insert_lookup {V : Type} (f : Z -> V) (years : list Z) (d : gmap Z V) (y : Z) :
  fold_left (fun d y => <[y := f y]> d) years d !! y
  = if decide (y ∈ years) then Some (f y) else d !! y.
Proof.
  revert d. induction years as [|x years IH]; intros d; simpl.
  - destruct (decide (y ∈ [])) as [H|_]; [|reflexivity]. now apply not_elem_of_nil in H.
  - rewrite IH. destruct (decide (y ∈ years)) as [Hin|Hnin].
    + rewrite decide_True by (now right). reflexivity.
    + destruct (decide (x = y)) as [->|Hne].
      * rewrite decide_True by left. apply lookup_insert_eq.
      * rewrite decide_False by (rewrite elem_of_cons; intros [E|E]; congruence).
        now apply lookup_insert_ne.
Qed.

(** A dict comprehension over [years] has exactly the keys [years]. *)
Lemma dict_comp_lookup {V : Type} (f : Z -> V) (years : list Z) (y : Z) :
  dict_comp f years !! y = if decide (y ∈ years) then Some (f y) else None.
Proof. unfold dict_comp. now rewrite fold_insert_lookup, lookup_empty. Qed.

Lemma get_series_lookup (self : OBRForecast) (metric : string) (years : option (list Z))
    (y : Z) :
  get_series self metric years !! y
  = if decide (y ∈ default default_years years) then Some (get self metric y) else None.
Proof.
  unfold get_series, get.
  destruct (_data self !! metric) as [series|].
  - exact (dict_comp_lookup (fun y => series !! y) _ y).
  - exact (dict_comp_lookup (fun _ => None) _ y).
Qed.

Lemma elem_of_available_metrics (self : OBRForecast) (metric : string) :
  metric ∈ available_metrics self <-> is_Some (_data self !! metric).
Proof.
  unfold available_metrics. rewrite list_elem_of_fmap. split.
  - intros ([m series] & -> & H). apply elem_of_map_to_list in H. simpl. eauto.
  - intros [series H]. exists (metric, series). split; [reflexivity|].
    now apply elem_of_map_to_list.
Qed.

(** C1. A (metric, year) pair that is not in the loaded data, the metric
    loaded or not, makes [get] return [None]: no number stands in for it, and
    [get], a total function, has nothing to raise. *)
Theorem get_missing_is_None (self : OBRForecast) (metric : string) (year : Z) :
  ~ loaded self metric year -> get self metric year = None.
Proof.
  unfold loaded, get. intros H.
  destruct (_data self !! metric) as [series|]; [|reflexivity].
  destruct (series !! year) as [v|] eqn:E; [|reflexivity].
  exfalso. apply H. eauto.
Qed.

Lemma november_cpi_2030_not_loaded : ~ loaded november "cpi" 2030.
Proof.
  intros (series & v & Hs & Hv). vm_compute in Hs. injection Hs as <-.
  vm_compute in Hv. discriminate.
Defined.

Lemma get_missing_is_None_witness :
  ~ loaded november "cpi" 2030 /\ get november "cpi" 2030 = None.
Proof.
  split; [exact november_cpi_2030_not_loaded|].
  exact (get_missing_is_None november "cpi" 2030 november_cpi_2030_not_loaded).
Defined.

(** C9. [get_series] is total over the requested years: its keys are exactly
    those years, each mapped to what [get] returns for it, a value or [None];
    with [years] omitted the window is 2025..2030. *)
Theorem get_series_total (self : OBRForecast) (metric : string) (years : option (list Z)) :
  let requested := default [2025; 2026; 2027; 2028; 2029; 2030] years in
  dom (get_series self metric years) = list_to_set requested
  /\ (forall y, y ∈ requested ->
                get_series self metric years !! y = Some (get self metric y))
  /\ (forall y, y ∉ requested -> get_series self metric years !! y = None).
Proof.
  intros requested. split; [|split].
  - apply set_eq. intros y. rewrite elem_of_dom, get_series_lookup, elem_of_list_to_set.
    fold default_years. fold requested.
    destruct (decide (y ∈ default default_years years)) as [H|H]; split;
      try (intros [? [=]]); eauto; contradiction.
  - intros y Hy. rewrite get_series_lookup. now rewrite decide_True.
  - intros y Hy. rewrite get_series_lookup. now rewrite decide_False.
Qed.

(** C10. [available_metrics] lists exactly the metrics that have a series in
    the snapshot; [get] returns a value only for a listed metric; for a
    metric not listed [get] returns [None] for every year and [get_series]
    maps every requested year, and nothing else, to [None]. *)
Theorem available_metrics_agree (self : OBRForecast) :
  (forall metric, metric ∈ available_metrics self <-> is_Some (_data self !! metric))
  /\ (forall metric year v,
        get self metric year = Some v -> metric ∈ available_metrics self)
  /\ (forall metric, metric ∉ available_metrics self ->
        (forall year, get self metric year = None)
        /\ (forall years y,
              get_series self metric years !! y
              = if decide (y ∈ default default_years years) then Some None else None)).
Proof.
  split; [apply elem_of_available_metrics|]. split.
  - intros metric year v H. apply elem_of_available_metrics.
    unfold get in H. destruct (_data self !! metric); [eauto | discriminate].
  - intros metric H.
    assert (_data self !! metric = None) as Hnone.
    { destruct (_data self !! metric) eqn:E; [|reflexivity].
      exfalso. apply H, elem_of_available_metrics. eauto. }
    split.
    + intros year. unfold get. now rewrite Hnone.
    + intros years y. unfold get_series. rewrite Hnone.
      exact (dict_comp_lookup (fun _ => None) _ y).
Qed.

End Accessor.

(** ** Comparing two editions: [compare_to] *)

Section Comparison.

(** A dict display of two items has both keys, in order, unless they are the
    same key, which then keeps the second value. *)
Lemma dict_display_two {V : Type} (a b : string) (x y : V) :
  dict_display [(a, x); (b, y)] = if String.eqb b a then [(b, y)] else [(a, x); (b, y)].
Proof. reflexivity. Qed.

(** C3, as stated, fails: a snapshot compared with a snapshot of the same
    edition gives a table of one data column, not two. *)
Lemma compare_same_edition_one_column :
  exists t, compare_to march march "cpi" (Some [2025; 2026]) = Ok t
            /\ n_rows t = 2%nat
            /\ column_names t = ["march-2025"].
Proof. eexists. split; [reflexivity|]. split; reflexivity. Qed.

(** C3, amended. For two snapshots of different editions, any metric and any
    list of years (the window 2025..2030 when omitted), [compare_to] returns
    a table indexed by the requested years in order, so of as many rows, with
    exactly two data columns, named after the first and the second edition,
    each holding one entry per year: what [get] returns, a value or [None]. *)
Theorem compare_to_shape (self other : OBRForecast) (metric : string)
    (years : option (list Z)) :
  edition self <> edition other ->
  let requested := default default_years years in
  exists t, compare_to self other metric years = Ok t
            /\ index t = requested
            /\ n_rows t = length requested
            /\ column_names t = [edition self; edition other]
            /\ data t = [(edition self, map (get self metric) requested);
                         (edition other, map (get other metric) requested)].
Proof.
  intros Hne requested. unfold compare_to. fold requested.
  rewrite dict_display_two.
  assert (String.eqb (edition other) (edition self) = false) as ->
    by (apply String.eqb_neq; congruence).
  unfold DataFrame_of_dict. simpl.
  rewrite !length_map, Nat.eqb_refl. simpl.
  eexists. split; [reflexivity|]. repeat split.
Qed.

Lemma compare_to_shape_witness :
  edition november <> edition march
  /\ exists t, compare_to november march "cpi" (Some [2025; 2026]) = Ok t
               /\ index t = [2025; 2026]
               /\ n_rows t = 2%nat
               /\ column_names t = ["november-2025"; "march-2025"]
               /\ data t = [("november-2025", map (get november "cpi") [2025; 2026]);
                            ("march-2025", map (get march "cpi") [2025; 2026])].
Proof.
  assert (edition november <> edition march) as Hne by discriminate.
  split; [exact Hne|].
  exact (compare_to_shape november march "cpi" (Some [2025; 2026]) Hne).
Defined.

End Comparison.

(** ** The fetcher and its cache: [_get_excel_path] *)

Section Fetcher.

(** A cached file is returned as it is: no lookup in the registry, no
    request, whatever the edition. *)
Lemma get_excel_path_cached (env : Env) (self : OBRForecast) (w : World) :
  is_Some (files w !! cache_path self) ->
  _get_excel_path env self w = (Ok (cache_path self), w).
Proof.
  intros H. unfold _get_excel_path, mbind, M_bind, path_exists.
  now rewrite bool_decide_eq_true_2.
Qed.

(** C2, as stated, fails: with a file already at its cache path, an edition
    that is not in the registry resolves to that path; nothing is raised. *)
Lemma unknown_edition_cached_resolves :
  OBR_URLS !! edition june_unloaded = None
  /\ _get_excel_path online june_unloaded june_cached
     = (Ok "/tmp/obr_june-2024_economy.xlsx", june_cached).
Proof. split; reflexivity. Qed.

(** C2, amended. For an edition that is not in the registry, resolving the
    path sends no request and leaves the world as it was; it raises the
    unknown-edition error when no file stands at the edition's cache path
    (and so does [_load_data], the construction of the snapshot), and
    returns that path when one does. *)
Theorem unknown_edition (env : Env) (self : OBRForecast) (w : World) :
  OBR_URLS !! edition self = None ->
  _get_excel_path env self w
  = (match files w !! cache_path self with
     | Some _ => Ok (cache_path self)
     | None => Raise (ValueError ("Unknown OBR edition: " +:+ edition self))
     end, w)
  /\ (files w !! cache_path self = None ->
      _load_data env self w
      = (Raise (ValueError ("Unknown OBR edition: " +:+ edition self)), w)).
Proof.
  intros Hreg.
  assert (files w !! cache_path self = None ->
          _get_excel_path env self w
          = (Raise (ValueError ("Unknown OBR edition: " +:+ edition self)), w)) as Hraise.
  { intros Hnone. unfold _get_excel_path, mbind, M_bind, path_exists.
    rewrite bool_decide_eq_false_2 by (rewrite Hnone; intros [? [=]]).
    simpl. now rewrite Hreg. }
  split.
  - destruct (files w !! cache_path self) as [content|] eqn:E.
    + apply get_excel_path_cached. rewrite E. eauto.
    + now apply Hraise.
  - intros Hnone. unfold _load_data, mbind at 1, M_bind at 1.
    now rewrite (Hraise Hnone).
Qed.

Lemma unknown_edition_witness :
  OBR_URLS !! edition june_unloaded = None
  /\ _get_excel_path online june_unloaded fresh_world
     = (match files fresh_world !! cache_path june_unloaded with
        | Some _ => Ok (cache_path june_unloaded)
        | None => Raise (ValueError ("Unknown OBR edition: " +:+ edition june_unloaded))
        end, fresh_world)
  /\ (files fresh_world !! cache_path june_unloaded = None ->
      _load_data online june_unloaded fresh_world
      = (Raise (ValueError ("Unknown OBR edition: " +:+ edition june_unloaded)),
         fresh_world)).
Proof.
  split; [reflexivity|].
  exact (unknown_edition online june_unloaded fresh_world eq_refl).
Defined.

(** C7, as stated, fails: while the server answers 503 nothing is cached, and
    two fetches of a registered edition send two requests. *)
Lemma fetch_twice_two_requests :
  is_Some (OBR_URLS !! edition march_unloaded)
  /\ fst (_get_excel_path unavailable march_unloaded fresh_world) = Raise (HTTPError 503)
  /\ fst (_get_excel_path unavailable march_unloaded
            (snd (_get_excel_path unavailable march_unloaded fresh_world)))
     = Raise (HTTPError 503)
  /\ length (requests
               (snd (_get_excel_path unavailable march_unloaded
                       (snd (_get_excel_path unavailable march_unloaded fresh_world)))))
     = 2%nat.
Proof. split; [eexists; reflexivity|]. split; [|split]; reflexivity. Qed.

(** C7, amended. When a first fetch returns (from the cache or after a
    download) it sent at most one request and left a file at the returned
    path; a second fetch for the same snapshot then returns the same path
    and leaves the world as it is: no further request, the same bytes in the
    cache. *)
Theorem fetch_twice (env : Env) (self : OBRForecast) (w w1 : World) (p : string) :
  _get_excel_path env self w = (Ok p, w1) ->
  p = cache_path self
  /\ (length (requests w1) <= S (length (requests w)))%nat
  /\ is_Some (files w1 !! p)
  /\ _get_excel_path env self w1 = (Ok p, w1).
Proof.
  intros H.
  assert (p = cache_path self /\ (length (requests w1) <= S (length (requests w)))%nat
          /\ is_Some (files w1 !! cache_path self)) as (-> & Hreq & Hfile).
  { revert H. unfold _get_excel_path, mbind, M_bind, path_exists.
    destruct (decide (is_Some (files w !! cache_path self))) as [Hc|Hc].
    - rewrite bool_decide_eq_true_2 by assumption. simpl.
      intros [= <- <-]. split; [reflexivity|]. split; [lia | assumption].
    - rewrite bool_decide_eq_false_2 by assumption. simpl.
      destruct (falsy (OBR_URLS !! edition self)); [discriminate|].
      unfold requests_get.
      destruct (http_get env _ _) as [|status content]; [discriminate|].
      destruct ((400 <=? status) && (status <? 600)); [discriminate|].
      unfold write_bytes. destruct (can_write env (cache_path self)); [|discriminate].
      destruct (write_outcome env (cache_path self) content); [|discriminate].
      intros [= <- <-]. simpl. split; [reflexivity|].
      split; [rewrite length_app; simpl; lia|].
      rewrite lookup_insert_eq. eauto. }
  split; [reflexivity|]. split; [assumption|]. split; [assumption|].
  now apply get_excel_path_cached.
Qed.

Lemma fetch_twice_witness :
  _get_excel_path online march_unloaded fresh_world
  = (Ok "/tmp/obr_march-2025_economy.xlsx", march_fetched)
  /\ "/tmp/obr_march-2025_economy.xlsx" = cache_path march_unloaded
  /\ (length (requests march_fetched) <= S (length (requests fresh_world)))%nat
  /\ is_Some (files march_fetched !! "/tmp/obr_march-2025_economy.xlsx")
  /\ _get_excel_path online march_unloaded march_fetched
     = (Ok "/tmp/obr_march-2025_economy.xlsx", march_fetched).
Proof.
  split; [reflexivity|].
  exact (fetch_twice online march_unloaded fresh_world march_fetched
           "/tmp/obr_march-2025_economy.xlsx" eq_refl).
Defined.

End Fetcher.

(** ** Construction: [_load_data] and the three sheet loaders *)

Section Construction.

Example init_without_1_7 :
  __init__ without_1_7 "march-2025" None fresh_world = (Ok march_without_1_7, march_warned).
Proof. vm_compute. reflexivity. Qed.

(** Reading a sheet depends on the files only. *)
Lemma pd_read_excel_files (env : Env) (path sheet : string) (w w' : World) :
  files w' = files w -> pd_read_excel env path sheet w' = pd_read_excel env path sheet w.
Proof. unfold pd_read_excel. now intros ->. Qed.

(** A loader whose sheet cannot be read prints a warning and returns the
    snapshot as it got it. *)
Lemma load_sheet_1_7_fails (env : Env) (p msg : string) (s : OBRForecast) (w : World) :
  pd_read_excel env p "1.7" w = inr msg ->
  _load_sheet_1_7 env p s w
  = (Ok s, logged w ("Warning: Could not load sheet 1.7: " +:+ msg)).
Proof. unfold _load_sheet_1_7. now intros ->. Qed.

Lemma load_sheet_1_6_fails (env : Env) (p msg : string) (s : OBRForecast) (w : World) :
  pd_read_excel env p "1.6" w = inr msg ->
  _load_sheet_1_6 env p s w
  = (Ok s, logged w ("Warning: Could not load sheet 1.6: " +:+ msg)).
Proof. unfold _load_sheet_1_6. now intros ->. Qed.

Lemma load_sheet_1_16_fails (env : Env) (p msg : string) (s : OBRForecast) (w : World) :
  pd_read_excel env p "1.16" w = inr msg ->
  _load_sheet_1_16 env p s w
  = (Ok s, logged w ("Warning: Could not load sheet 1.16: " +:+ msg)).
Proof. unfold _load_sheet_1_16. now intros ->. Qed.

(** The loaders write no file. *)
Lemma load_sheet_1_7_files (env : Env) (p : string) (s : OBRForecast) (w : World) :
  files (snd (_load_sheet_1_7 env p s w)) = files w.
Proof. unfold _load_sheet_1_7. now destruct (pd_read_excel env p "1.7" w). Qed.

Lemma load_sheet_1_6_files (env : Env) (p : string) (s : OBRForecast) (w : World) :
  files (snd (_load_sheet_1_6 env p s w)) = files w.
Proof. unfold _load_sheet_1_6. now destruct (pd_read_excel env p "1.6" w). Qed.

(** A loader touches the series of its own metrics only. *)
Lemma load_metric_frame (df : DataFrame) (s s' : OBRForecast) (item : string * Z) :
  load_metric df s item = Ok s' ->
  forall metric, metric <> fst item -> _data s' !! metric = _data s !! metric.
Proof.
  unfold load_metric. destruct (_extract_annual_data df (snd item)); simpl; [|discriminate].
  intros [= <-] metric Hne. simpl. now apply lookup_insert_ne.
Qed.

Lemma load_metrics_frame (df : DataFrame) (items : list (string * Z)) (s s' : OBRForecast) :
  for_each (load_metric df) items s = Ok s' ->
  forall metric, metric ∉ items.*1 -> _data s' !! metric = _data s !! metric.
Proof.
  revert s. induction items as [|item items IH]; intros s; simpl.
  - now intros [= <-].
  - destruct (load_metric df s item) as [s1|e] eqn:E; [|discriminate].
    intros H metric Hnin. apply not_elem_of_cons in Hnin as [Hne Hnin].
    rewrite (IH s1 H metric Hnin). now apply (load_metric_frame df s s1 item).
Qed.

Lemma load_sheet_1_7_frame (env : Env) (p : string) (s s' : OBRForecast) (w w' : World) :
  _load_sheet_1_7 env p s w = (Ok s', w') ->
  forall metric, metric ∉ col_map.*1 -> _data s' !! metric = _data s !! metric.
Proof.
  unfold _load_sheet_1_7. destruct (pd_read_excel env p "1.7" w) as [df|e].
  - unfold lift. intros [= H _]. now apply (load_metrics_frame df col_map).
  - intros [= <- _]. reflexivity.
Qed.

Lemma load_sheet_1_6_frame (env : Env) (p : string) (s s' : OBRForecast) (w w' : World) :
  _load_sheet_1_6 env p s w = (Ok s', w') ->
  forall metric, metric <> "average_earnings" -> _data s' !! metric = _data s !! metric.
Proof.
  unfold _load_sheet_1_6. destruct (pd_read_excel env p "1.6" w) as [df|e].
  - unfold lift. intros [= H _] metric Hne. revert H.
    destruct (_find_column_by_header df (str "Average weekly earnings growth")) as [[c|]|e];
      simpl; [| |discriminate].
    + intros H. now apply (load_metric_frame _ _ _ _ H).
    + destruct (_find_column_by_header df (str "Average earnings growth")) as [[c|]|e];
        simpl; [| |discriminate].
      * intros H. now apply (load_metric_frame _ _ _ _ H).
      * now intros [= <-].
  - intros [= <- _]. reflexivity.
Qed.

Lemma load_sheet_1_16_frame (env : Env) (p : string) (s s' : OBRForecast) (w w' : World) :
  _load_sheet_1_16 env p s w = (Ok s', w') ->
  forall metric, metric <> "house_prices" -> _data s' !! metric = _data s !! metric.
Proof.
  unfold _load_sheet_1_16. destruct (pd_read_excel env p "1.16" w) as [df|e].
  - unfold lift. intros [= H _] metric Hne. revert H.
    destruct (_find_column_by_header df (str "per cent change")) as [[c|]|e];
      simpl; [| |discriminate].
    + intros H. now apply (load_metric_frame _ _ _ _ H).
    + now intros [= <-].
  - intros [= <- _]. reflexivity.
Qed.

Lemma get_unloaded (s : OBRForecast) (metric : string) :
  _data s !! metric = None -> forall year, get s metric year = None.
Proof. intros H year. unfold get. now rewrite H. Qed.

Lemma load_metric_inv (df : DataFrame) (s s' : OBRForecast) (item : string * Z) :
  load_metric df s item = Ok s' ->
  exists series, _extract_annual_data df (snd item) = Ok series
                 /\ s' = set_data s (fst item) series.
Proof.
  unfold load_metric.
  destruct (_extract_annual_data df (snd item)) as [series|e]; simpl; [|discriminate].
  intros [= <-]. eauto.
Qed.

(** After the loop of [_load_sheet_1_7] each metric of the mapping holds the
    series extracted from its column. *)
Lemma load_metrics_lookup (df : DataFrame) (items : list (string * Z)) (s s' : OBRForecast) :
  NoDup items.*1 ->
  for_each (load_metric df) items s = Ok s' ->
  forall metric col, (metric, col) ∈ items ->
    exists series, _extract_annual_data df col = Ok series
                   /\ _data s' !! metric = Some series.
Proof.
  revert s. induction items as [|item items IH]; intros s Hnd; simpl.
  - intros _ metric col Hin. now apply elem_of_nil in Hin.
  - apply NoDup_cons in Hnd as [Hfresh Hnd].
    destruct (load_metric df s item) as [s1|e] eqn:E; [|discriminate].
    intros Hrest metric col Hin. apply elem_of_cons in Hin as [<-|Hin].
    + apply load_metric_inv in E as (series & Hx & ->). exists series.
      split; [exact Hx|].
      rewrite (load_metrics_frame df items _ s' Hrest metric Hfresh).
      simpl. apply lookup_insert_eq.
    + now apply (IH s1 Hnd Hrest metric col).
Qed.

Lemma not_available (s : OBRForecast) (metric : string) :
  _data s !! metric = None -> metric ∉ available_metrics s.
Proof. intros H Hin. apply elem_of_available_metrics in Hin. rewrite H in Hin. now destruct Hin. Qed.

Lemma available (s : OBRForecast) (metric : string) (series : gmap Z spec_float) :
  _data s !! metric = Some series -> metric ∈ available_metrics s.
Proof. intros H. apply elem_of_available_metrics. eauto. Qed.

Lemma get_series_of (s : OBRForecast) (metric : string) (series : gmap Z spec_float) (year : Z) :
  _data s !! metric = Some series -> get s metric year = series !! year.
Proof. intros H. unfold get. now rewrite H. Qed.

Lemma found_column_eq (df : DataFrame) (header_text : list Z) :
  _find_column_by_header df header_text = Ok (found_column df header_text).
Proof.
  unfold found_column.
  destruct (_find_column_by_header df header_text) as [col|e] eqn:E; [reflexivity|].
  now apply find_column_never_raises in E.
Qed.

(** The loop over the extracted columns returns exactly when each of them is
    extractable. *)
Lemma load_metrics_returns (df : DataFrame) (items : list (string * Z)) (s : OBRForecast) :
  if forallb (fun item => extractable df (snd item)) items
  then exists s', for_each (load_metric df) items s = Ok s'
  else exists e, for_each (load_metric df) items s = Raise e.
Proof.
  revert s. induction items as [|item items IH]; intros s; simpl; [eauto|].
  pose proof (extractable_returns df (snd item)) as H.
  unfold load_metric at 1 3.
  destruct (extractable df (snd item)); simpl.
  - destruct H as [d ->]. simpl. apply IH.
  - destruct H as [e ->]. simpl. eauto.
Qed.

(** Each loader is [load_sheet] at its sheet. *)
Lemma load_sheet_1_7_run (env : Env) (p : string) (s : OBRForecast) (w : World) :
  _load_sheet_1_7 env p s w = load_sheet env p "1.7" s w.
Proof.
  unfold _load_sheet_1_7, load_sheet. now destruct (pd_read_excel env p "1.7" w).
Qed.

Lemma load_sheet_1_6_run (env : Env) (p : string) (s : OBRForecast) (w : World) :
  _load_sheet_1_6 env p s w = load_sheet env p "1.6" s w.
Proof.
  unfold _load_sheet_1_6, load_sheet.
  destruct (pd_read_excel env p "1.6" w) as [df|msg]; [|reflexivity].
  unfold lift, extracted_columns. cbn [String.eqb Ascii.eqb Bool.eqb andb].
  rewrite !found_column_eq. simpl.
  destruct (found_column df (str "Average weekly earnings growth")) as [c|]; simpl.
  - now destruct (load_metric df s ("average_earnings", Z.of_nat c)).
  - destruct (found_column df (str "Average earnings growth")) as [c|]; simpl; [|reflexivity].
    now destruct (load_metric df s ("average_earnings", Z.of_nat c)).
Qed.

Lemma load_sheet_1_16_run (env : Env) (p : string) (s : OBRForecast) (w : World) :
  _load_sheet_1_16 env p s w = load_sheet env p "1.16" s w.
Proof.
  unfold _load_sheet_1_16, load_sheet.
  destruct (pd_read_excel env p "1.16" w) as [df|msg]; [|reflexivity].
  unfold lift, extracted_columns. cbn [String.eqb Ascii.eqb Bool.eqb andb].
  rewrite !found_column_eq. simpl.
  destruct (found_column df (str "per cent change")) as [c|]; simpl; [|reflexivity].
  now destruct (load_metric df s ("house_prices", Z.of_nat c)).
Qed.

Lemma load_sheets_run (env : Env) (p : string) (s : OBRForecast) (w : World) :
  (s ← _load_sheet_1_7 env p s; s ← _load_sheet_1_6 env p s; _load_sheet_1_16 env p s) w
  = load_each env p loaded_sheets s w.
Proof.
  unfold loaded_sheets, load_each, mbind, M_bind. rewrite load_sheet_1_7_run.
  destruct (load_sheet env p "1.7" s w) as [[s1|e] w2]; [|reflexivity].
  rewrite load_sheet_1_6_run.
  destruct (load_sheet env p "1.6" s1 w2) as [[s2|e] w3]; [|reflexivity].
  rewrite load_sheet_1_16_run.
  now destruct (load_sheet env p "1.16" s2 w3) as [[s3|e] w4].
Qed.

(** A loader stores under the names [METRIC_LOCATIONS] gives its sheet, each
    at most once, and a name belongs to one sheet. *)
Lemma extracted_located (sheet : string) (df : DataFrame) (metric : string) (col : Z) :
  (metric, col) ∈ extracted_columns sheet df ->
  exists loc, (metric, (sheet, loc)) ∈ METRIC_LOCATIONS.
Proof.
  unfold extracted_columns.
  destruct (String.eqb_spec sheet "1.7") as [->|_].
  { intros Hin. apply list_elem_of_In in Hin. simpl in Hin.
    repeat (destruct Hin as [[= <- <-]|Hin];
            [eexists; apply list_elem_of_In; simpl; eauto 10|]).
    contradiction. }
  destruct (String.eqb_spec sheet "1.6") as [->|_].
  { assert (forall c : nat, (metric, col) ∈ [("average_earnings", Z.of_nat c)] ->
              exists loc, (metric, ("1.6", loc)) ∈ METRIC_LOCATIONS) as Hone.
    { intros c Hin. apply list_elem_of_In in Hin. simpl in Hin.
      destruct Hin as [[= <- <-]|[]]. eexists. apply list_elem_of_In. simpl. eauto 10. }
    destruct (found_column df (str "Average weekly earnings growth")) as [c|]; [apply Hone|].
    destruct (found_column df (str "Average earnings growth")) as [c|]; [apply Hone|].
    intros Hin. now apply elem_of_nil in Hin. }
  destruct (String.eqb_spec sheet "1.16") as [->|_].
  { destruct (found_column df (str "per cent change")) as [c|].
    - intros Hin. apply list_elem_of_In in Hin. simpl in Hin.
      destruct Hin as [[= <- <-]|[]]. eexists. apply list_elem_of_In. simpl. eauto 10.
    - intros Hin. now apply elem_of_nil in Hin. }
  intros Hin. now apply elem_of_nil in Hin.
Qed.

Lemma extracted_NoDup (sheet : string) (df : DataFrame) :
  NoDup (extracted_columns sheet df).*1.
Proof.
  unfold extracted_columns.
  destruct (String.eqb sheet "1.7").
  { apply (bool_decide_unpack _). vm_compute. exact I. }
  destruct (String.eqb sheet "1.6").
  { destruct (found_column df (str "Average weekly earnings growth")) as [c|];
      [apply NoDup_singleton|].
    destruct (found_column df (str "Average earnings growth")) as [c|];
      [apply NoDup_singleton | apply NoDup_nil_2]. }
  destruct (String.eqb sheet "1.16"); [|apply NoDup_nil_2].
  destruct (found_column df (str "per cent change")) as [c|];
    [apply NoDup_singleton | apply NoDup_nil_2].
Qed.

Lemma located_once (metric sheet sheet' : string) (loc loc' : option Z) :
  (metric, (sheet, loc)) ∈ METRIC_LOCATIONS ->
  (metric, (sheet', loc')) ∈ METRIC_LOCATIONS ->
  sheet = sheet'.
Proof.
  intros H H'. apply list_elem_of_In in H, H'. simpl in H, H'.
  repeat (destruct H as [H|H]; [injection H as <- <- <-|]); try contradiction;
    repeat (destruct H' as [H'|H']; [try discriminate H'; now injection H'|]);
    contradiction.
Qed.

Lemma extracted_elsewhere (metric sheet sheet' : string) (loc : option Z) (df : DataFrame) :
  (metric, (sheet, loc)) ∈ METRIC_LOCATIONS -> sheet' <> sheet ->
  metric ∉ (extracted_columns sheet' df).*1.
Proof.
  intros Hloc Hne Hin. apply list_elem_of_fmap in Hin as ([m col] & Hm & Hin).
  simpl in Hm. subst m. apply extracted_located in Hin as [loc' Hloc'].
  apply Hne. exact (located_once metric sheet' sheet loc' loc Hloc' Hloc).
Qed.

(** The loaders of a list of sheets, run one after the other on a workbook:
    they return exactly when each sheet that reads has its columns
    extractable. They then have printed a warning for each sheet that does
    not read, left alone the metrics of no sheet that reads, and stored the
    extracted series of each sheet that reads. *)
Lemma load_each_spec (env : Env) (p : string) (w0 : World) (sheets : list string) :
  forall (s : OBRForecast) (w : World), files w = files w0 ->
  if forallb (sheet_loads env p w0) sheets
  then exists s' w',
         load_each env p sheets s w = (Ok s', w')
         /\ files w' = files w0
         /\ (forall line, line ∈ stdout w -> line ∈ stdout w')
         /\ (forall sheet msg, sheet ∈ sheets -> pd_read_excel env p sheet w0 = inr msg ->
               warning sheet msg ∈ stdout w')
         /\ (forall metric,
               (forall sheet df, sheet ∈ sheets -> pd_read_excel env p sheet w0 = inl df ->
                  metric ∉ (extracted_columns sheet df).*1) ->
               _data s' !! metric = _data s !! metric)
         /\ (NoDup sheets ->
             forall sheet df metric col,
               sheet ∈ sheets -> pd_read_excel env p sheet w0 = inl df ->
               (metric, col) ∈ extracted_columns sheet df ->
               exists series, _extract_annual_data df col = Ok series
                              /\ _data s' !! metric = Some series)
  else exists e w', load_each env p sheets s w = (Raise e, w').
Proof.
  induction sheets as [|sheet sheets IH]; intros s w Hw.
  { simpl. exists s, w. split_and!; auto.
    - intros sheet msg Hin. now apply elem_of_nil in Hin.
    - intros _ sheet df metric col Hin. now apply elem_of_nil in Hin. }
  cbn [forallb load_each]. unfold mbind, M_bind. unfold load_sheet. unfold sheet_loads at 1.
  rewrite (pd_read_excel_files env p sheet w0 w Hw).
  destruct (pd_read_excel env p sheet w0) as [df|msg] eqn:R.
  - pose proof (load_metrics_returns df (extracted_columns sheet df) s) as Hloop.
    destruct (forallb (fun item => extractable df (snd item)) (extracted_columns sheet df));
      [|destruct Hloop as [e ->]; simpl; eauto].
    destruct Hloop as [s1 Hloop]. rewrite Hloop. simpl.
    specialize (IH s1 w Hw).
    destruct (forallb (sheet_loads env p w0) sheets); [|exact IH].
    destruct IH as (s' & w' & Hrun & Hf & Hout & Hwarn & Hframe & Hload).
    exists s', w'. split_and!; auto.
    + intros sheet' msg Hin Hr. apply elem_of_cons in Hin as [->|Hin]; [congruence|].
      now apply Hwarn.
    + intros metric Hout'. rewrite Hframe.
      * apply (load_metrics_frame df _ s s1 Hloop). apply (Hout' sheet df); [|exact R].
        apply elem_of_cons. now left.
      * intros sheet' df' Hin. apply Hout'. apply elem_of_cons. now right.
    + intros Hnd sheet' df' metric col Hin Hr Hcol.
      apply NoDup_cons in Hnd as [Hfresh Hnd].
      apply elem_of_cons in Hin as [->|Hin]; [|now apply (Hload Hnd sheet' df')].
      assert (df' = df) as -> by congruence.
      destruct (load_metrics_lookup df _ s s1 (extracted_NoDup sheet df) Hloop metric col Hcol)
        as (series & Hx & Hs1).
      exists series. split; [exact Hx|]. rewrite Hframe; [exact Hs1|].
      intros sheet' df' Hin _. destruct (extracted_located _ _ _ _ Hcol) as [loc Hloc].
      apply (extracted_elsewhere metric sheet sheet' loc df' Hloc). now intros ->.
  - simpl.
    assert (files (logged w (warning sheet msg)) = files w0) as Hw' by exact Hw.
    specialize (IH s (logged w (warning sheet msg)) Hw').
    destruct (forallb (sheet_loads env p w0) sheets); [|exact IH].
    destruct IH as (s' & w' & Hrun & Hf & Hout & Hwarn & Hframe & Hload).
    exists s', w'. split_and!; auto.
    + intros line Hin. apply Hout. simpl. apply elem_of_app. now left.
    + intros sheet' msg' Hin Hr. apply elem_of_cons in Hin as [->|Hin]; [|now apply Hwarn].
      assert (msg' = msg) as -> by congruence.
      apply Hout. simpl. apply elem_of_app. right. apply elem_of_cons. now left.
    + intros metric Hout'. apply Hframe.
      intros sheet' df' Hin. apply Hout'. apply elem_of_cons. now right.
    + intros Hnd sheet' df' metric col Hin Hr Hcol.
      apply NoDup_cons in Hnd as [Hfresh Hnd].
      apply elem_of_cons in Hin as [->|Hin]; [congruence|].
      now apply (Hload Hnd sheet' df' metric col).
Qed.

(** A sheet that does not read, beside a sheet that reads and raises in the
    extraction: the construction raises. *)
Lemma sheet_failure_not_absorbed :
  pd_read_excel without_1_7_narrow_1_6 "/tmp/obr_march-2025_economy.xlsx" "1.7" march_fetched
  = inr "Worksheet named 1.7 not found"
  /\ __init__ without_1_7_narrow_1_6 "march-2025" None fresh_world
     = (Raise IndexError, march_warned).
Proof. split; vm_compute; reflexivity. Qed.

(** C8, amended. Once the workbook's path is resolved, take one of the three
    sheets that does not read. The construction returns a snapshot exactly
    when every sheet that does read has the columns its loader extracts
    extractable; it raises otherwise. When it returns, the warning for the
    unread sheet has been printed, the metrics [METRIC_LOCATIONS] places on
    that sheet are not listed and [get] returns [None] for them, and, for
    each sheet that reads, each metric of its extracted columns is listed
    and holds the series extracted from its column. *)
Theorem sheet_failure_absorbed (env : Env) (edition : string) (cache_dir : option string)
    (w w1 : World) (p sheet msg : string) :
  let self := mkOBRForecast edition (cache_dir_of env cache_dir) ∅ in
  _get_excel_path env self w = (Ok p, w1) ->
  sheet ∈ loaded_sheets ->
  pd_read_excel env p sheet w1 = inr msg ->
  if loads_cleanly env p w1
  then exists s w',
         __init__ env edition cache_dir w = (Ok s, w')
         /\ warning sheet msg ∈ stdout w'
         /\ (forall metric loc, (metric, (sheet, loc)) ∈ METRIC_LOCATIONS ->
               (metric ∉ available_metrics s) /\ forall year, get s metric year = None)
         /\ (forall sheet' df metric col,
               pd_read_excel env p sheet' w1 = inl df ->
               (metric, col) ∈ extracted_columns sheet' df ->
               metric ∈ available_metrics s
               /\ exists series, _extract_annual_data df col = Ok series
                                 /\ forall year, get s metric year = series !! year)
  else exists e w', __init__ env edition cache_dir w = (Raise e, w').
Proof.
  intros self Hpath Hsheet Hfail.
  assert (__init__ env edition cache_dir w = load_each env p loaded_sheets self w1) as ->.
  { unfold __init__, _load_data. fold self. unfold mbind at 1, M_bind at 1.
    rewrite Hpath. apply load_sheets_run. }
  pose proof (load_each_spec env p w1 loaded_sheets self w1 eq_refl) as H.
  unfold loads_cleanly. destruct (forallb (sheet_loads env p w1) loaded_sheets); [|exact H].
  destruct H as (s & w' & Hrun & _ & _ & Hwarn & Hframe & Hload).
  exists s, w'. split; [exact Hrun|]. split; [now apply Hwarn|]. split.
  - intros metric loc Hloc.
    assert (_data s !! metric = None) as Hnone.
    { rewrite Hframe; [apply lookup_empty|].
      intros sheet' df _ Hr. apply (extracted_elsewhere metric sheet sheet' loc df Hloc).
      intros ->. congruence. }
    split; [now apply not_available | now apply get_unloaded].
  - intros sheet' df metric col Hr Hcol.
    assert (sheet' ∈ loaded_sheets) as Hin.
    { revert Hcol. unfold extracted_columns, loaded_sheets.
      destruct (String.eqb_spec sheet' "1.7") as [->|_];
        [intros _; apply elem_of_cons; now left|].
      destruct (String.eqb_spec sheet' "1.6") as [->|_];
        [intros _; apply elem_of_cons; right; apply elem_of_cons; now left|].
      destruct (String.eqb_spec sheet' "1.16") as [->|_];
        [intros _; do 2 (apply elem_of_cons; right); apply elem_of_cons; now left|].
      intros Hcol. now apply elem_of_nil in Hcol. }
    assert (NoDup loaded_sheets) as Hnd by (apply (bool_decide_unpack _); vm_compute; exact I).
    destruct (Hload Hnd sheet' df metric col Hin Hr Hcol) as (series & Hx & Hs).
    split; [exact (available s metric series Hs)|].
    exists series. split; [exact Hx|]. intros year. now apply get_series_of.
Qed.

Lemma sheet_failure_absorbed_witness :
  _get_excel_path without_1_7 (mkOBRForecast "march-2025" (cache_dir_of without_1_7 None) ∅)
                  fresh_world
  = (Ok "/tmp/obr_march-2025_economy.xlsx", march_fetched)
  /\ "1.7" ∈ loaded_sheets
  /\ pd_read_excel without_1_7 "/tmp/obr_march-2025_economy.xlsx" "1.7" march_fetched
     = inr "Worksheet named 1.7 not found"
  /\ loads_cleanly without_1_7 "/tmp/obr_march-2025_economy.xlsx" march_fetched = true
  /\ if loads_cleanly without_1_7 "/tmp/obr_march-2025_economy.xlsx" march_fetched
     then exists s w',
            __init__ without_1_7 "march-2025" None fresh_world = (Ok s, w')
            /\ warning "1.7" "Worksheet named 1.7 not found" ∈ stdout w'
            /\ (forall metric loc, (metric, ("1.7", loc)) ∈ METRIC_LOCATIONS ->
                  (metric ∉ available_metrics s) /\ forall year, get s metric year = None)
            /\ (forall sheet' df metric col,
                  pd_read_excel without_1_7 "/tmp/obr_march-2025_economy.xlsx" sheet'
                                march_fetched = inl df ->
                  (metric, col) ∈ extracted_columns sheet' df ->
                  metric ∈ available_metrics s
                  /\ exists series, _extract_annual_data df col = Ok series
                                    /\ forall year, get s metric year = series !! year)
     else exists e w', __init__ without_1_7 "march-2025" None fresh_world = (Raise e, w').
Proof.
  split; [reflexivity|]. split; [apply elem_of_cons; now left|].
  split; [reflexivity|]. split; [reflexivity|].
  apply (sheet_failure_absorbed without_1_7 "march-2025" None fresh_world march_fetched
           "/tmp/obr_march-2025_economy.xlsx" "1.7" "Worksheet named 1.7 not found");
    [reflexivity | apply elem_of_cons; now left | reflexivity].
Defined.

End Construction.

(** * Further properties *)

(** ** What the methods do to the world *)

Section Effects.

Example init_complete :
  __init__ complete "march-2025" None fresh_world = (Ok march_complete, march_fetched).
Proof. vm_compute. reflexivity. Qed.

Lemma printed_nil (w : World) : printed w [] = w.
Proof. destruct w. unfold printed. simpl. now rewrite app_nil_r. Qed.

Lemma printed_printed (w : World) (a b : list string) :
  printed (printed w a) b = printed w (a ++ b).
Proof. unfold printed. simpl. now rewrite <- app_assoc. Qed.

(** No edition is registered with an empty URL. *)
Lemma registry_urls (e url : string) : OBR_URLS !! e = Some url -> url <> "".
Proof.
  unfold OBR_URLS. intros H.
  apply lookup_insert_Some in H as [[_ <-]|[_ H]]; [discriminate|].
  apply lookup_insert_Some in H as [[_ <-]|[_ H]]; [discriminate|].
  rewrite lookup_empty in H. discriminate.
Qed.

Lemma falsy_registry (e : string) :
  falsy (OBR_URLS !! e) = true <-> OBR_URLS !! e = None.
Proof.
  destruct (OBR_URLS !! e) as [url|] eqn:E; simpl; [|tauto].
  split; [|discriminate]. intros H. apply String.eqb_eq in H.
  now apply registry_urls in E.
Qed.

(** The ways a fetch can go: the cached file is there; the edition is not
    registered; or one request is sent to the registered URL, and then the
    fetch raises with the files as they were, or raises having written a
    leading part of the body of an answer that is no error, or returns
    having written all of it, to the cache path. *)
Lemma get_excel_path_inv (env : Env) (self : OBRForecast) (w w1 : World)
    (r : result string) :
  _get_excel_path env self w = (r, w1) ->
  (is_Some (files w !! cache_path self) /\ r = Ok (cache_path self) /\ w1 = w)
  \/ (files w !! cache_path self = None /\ OBR_URLS !! edition self = None
      /\ r = Raise (ValueError ("Unknown OBR edition: " +:+ edition self)) /\ w1 = w)
  \/ (files w !! cache_path self = None
      /\ exists url, OBR_URLS !! edition self = Some url
         /\ ((exists e, r = Raise e
                        /\ w1 = mkWorld (files w) (requests w ++ [url]) (stdout w))
             \/ (exists status content,
                   http_get env (length (requests w)) url = HTTPResponse status content
                   /\ ~ (400 <= status < 600)
                   /\ can_write env (cache_path self) = true
                   /\ ((exists n, r = Raise OSError
                          /\ w1 = mkWorld (<[cache_path self := take n content]> (files w))
                                          (requests w ++ [url]) (stdout w))
                       \/ (r = Ok (cache_path self)
                           /\ w1 = mkWorld (<[cache_path self := content]> (files w))
                                           (requests w ++ [url]) (stdout w)))))).
Proof.
  unfold _get_excel_path, mbind, M_bind, path_exists.
  destruct (decide (is_Some (files w !! cache_path self))) as [Hc|Hc].
  - rewrite bool_decide_eq_true_2 by assumption. simpl.
    intros [= <- <-]. left. auto.
  - rewrite bool_decide_eq_false_2 by assumption. simpl.
    assert (files w !! cache_path self = None) as Hnone.
    { destruct (files w !! cache_path self); [exfalso; apply Hc; eauto | reflexivity]. }
    destruct (falsy (OBR_URLS !! edition self)) eqn:Hf.
    + apply falsy_registry in Hf. intros [= <- <-]. right. left. auto.
    + destruct (OBR_URLS !! edition self) as [url|] eqn:Hurl; [|discriminate].
      simpl. unfold requests_get. intros H. right. right.
      split; [assumption|]. exists url. split; [reflexivity|].
      destruct (http_get env (length (requests w)) url) as [|status content] eqn:Hget.
      * injection H as <- <-. left. eauto.
      * destruct ((400 <=? status) && (status <? 600)) eqn:Hst.
        -- injection H as <- <-. left. eauto.
        -- assert (~ (400 <= status < 600)) as Hstatus.
           { apply andb_false_iff in Hst as [Hst|Hst];
               [apply Z.leb_gt in Hst | apply Z.ltb_ge in Hst]; lia. }
           unfold write_bytes in H.
           destruct (can_write env (cache_path self)) eqn:Hcw.
           ++ right. exists status, content.
              split; [reflexivity|]. split; [exact Hstatus|]. split; [reflexivity|].
              destruct (write_outcome env (cache_path self) content) as [|n];
                injection H as <- <-; [right | left]; eauto.
           ++ injection H as <- <-. left. eauto.
Qed.

(** X7. A file that a fetch puts at a cache path that was empty holds bytes
    of the body of an answer, with no error status, of the URL the registry
    gives for the edition: all of them when the fetch returned, a leading
    part of them when the write failed and the fetch raised [OSError]. *)
Theorem cached_bytes_provenance (env : Env) (self : OBRForecast) (w w1 : World)
    (r : result string) (content : bytes) :
  _get_excel_path env self w = (r, w1) ->
  files w !! cache_path self = None ->
  files w1 !! cache_path self = Some content ->
  exists url status body,
    OBR_URLS !! edition self = Some url
    /\ http_get env (length (requests w)) url = HTTPResponse status body
    /\ ~ (400 <= status < 600)
    /\ ((r = Ok (cache_path self) /\ content = body)
        \/ (r = Raise OSError /\ exists n, content = take n body)).
Proof.
  intros H Hnone Hsome.
  apply get_excel_path_inv in H
    as [(Hc & _) | [(_ & _ & _ & ->) | (_ & url & Hurl & [(e & _ & ->) | Hwrite])]].
  - rewrite Hnone in Hc. destruct Hc as [? [=]].
  - congruence.
  - simpl in Hsome. congruence.
  - destruct Hwrite as (status & body & Hget & Hst & _ & [(n & -> & ->) | (-> & ->)]);
      simpl in Hsome; rewrite lookup_insert_eq in Hsome; injection Hsome as <-;
      exists url, status, body; eauto 10.
Qed.

Lemma cached_bytes_provenance_witness :
  _get_excel_path online march_unloaded fresh_world
  = (Ok "/tmp/obr_march-2025_economy.xlsx", march_fetched)
  /\ files fresh_world !! cache_path march_unloaded = None
  /\ files march_fetched !! cache_path march_unloaded = Some payload
  /\ exists url status body,
       OBR_URLS !! edition march_unloaded = Some url
       /\ http_get online (length (requests fresh_world)) url = HTTPResponse status body
       /\ ~ (400 <= status < 600)
       /\ ((Ok "/tmp/obr_march-2025_economy.xlsx" = Ok (cache_path march_unloaded)
            /\ payload = body)
           \/ (Ok "/tmp/obr_march-2025_economy.xlsx" = Raise OSError
               /\ exists n, payload = take n body)).
Proof.
  split; [reflexivity|]. split; [reflexivity|]. split; [reflexivity|].
  exact (cached_bytes_provenance online march_unloaded fresh_world march_fetched
           (Ok "/tmp/obr_march-2025_economy.xlsx") payload eq_refl eq_refl eq_refl).
Defined.

(** A write that fails midway leaves a truncated file at the cache path
    while the fetch raises, and the next fetch takes that file for the
    cached workbook. *)
Example truncated_cache_is_reused :
  _get_excel_path disk_full march_unloaded fresh_world = (Raise OSError, march_truncated)
  /\ files march_truncated !! cache_path march_unloaded = Some [Byte.x50; Byte.x4b]
  /\ _get_excel_path disk_full march_unloaded march_truncated
     = (Ok (cache_path march_unloaded), march_truncated).
Proof. repeat split; reflexivity. Qed.

(** X8. Whatever a fetch returns or raises, it prints nothing, leaves every
    file other than the cache path as it was, and sends no request or one,
    to the registered URL; a fetch that raises anything but [OSError] has
    written nothing, and a fetch that finds the cached file changes nothing
    at all. *)
Theorem fetch_effects (env : Env) (self : OBRForecast) (w w1 : World) (r : result string) :
  _get_excel_path env self w = (r, w1) ->
  stdout w1 = stdout w
  /\ (forall path, path <> cache_path self -> files w1 !! path = files w !! path)
  /\ (requests w1 = requests w
      \/ exists url, OBR_URLS !! edition self = Some url
                     /\ requests w1 = (requests w ++ [url])%list)
  /\ (forall e, r = Raise e -> e <> OSError -> files w1 = files w)
  /\ (is_Some (files w !! cache_path self) -> w1 = w).
Proof.
  intros H.
  apply get_excel_path_inv in H
    as [(Hc & -> & ->) | [(Hnone & _ & -> & ->) | (Hnone & url & Hurl & [(e & -> & ->) | Hwrite])]].
  - repeat split; auto.
  - repeat split; auto.
  - simpl. split; [reflexivity|]. split; [reflexivity|]. split; [eauto|].
    split; [reflexivity|]. rewrite Hnone. intros [? [=]].
  - destruct Hwrite as (status & body & _ & _ & _ & [(n & -> & ->) | (-> & ->)]); simpl.
    + split; [reflexivity|].
      split; [intros path Hne; now apply lookup_insert_ne|].
      split; [eauto|]. split; [intros e [= <-] He; now destruct He|].
      rewrite Hnone. intros [? [=]].
    + split; [reflexivity|].
      split; [intros path Hne; now apply lookup_insert_ne|].
      split; [eauto|]. split; [discriminate|]. rewrite Hnone. intros [? [=]].
Qed.

Lemma fetch_effects_witness :
  _get_excel_path unavailable march_unloaded fresh_world
  = (Raise (HTTPError 503),
     mkWorld ∅ ["https://obr.uk/docs/dlm_uploads/Economy_Detailed_forecast_tables_March_2025.xlsx"] [])
  /\ HTTPError 503 <> OSError
  /\ files (mkWorld ∅ ["https://obr.uk/docs/dlm_uploads/Economy_Detailed_forecast_tables_March_2025.xlsx"] [])
     = files fresh_world.
Proof.
  assert (HTTPError 503 <> OSError) as Hne by discriminate.
  split; [reflexivity|]. split; [exact Hne|].
  destruct (fetch_effects unavailable march_unloaded fresh_world _ _ eq_refl)
    as (_ & _ & _ & Hraise & _).
  exact (Hraise (HTTPError 503) eq_refl Hne).
Defined.

End Effects.

(** ** Construction and the cache *)

Section Reconstruction.

Lemma reads_only_bind {A B : Type} (m : M A) (f : A -> M B) :
  reads_only m -> (forall a, reads_only (f a)) -> reads_only (a ← m; f a).
Proof.
  intros Hm Hf w w' Hfiles. unfold mbind, M_bind.
  destruct (Hm w w' Hfiles) as (r & out & -> & ->).
  destruct r as [a|e]; [|eauto].
  destruct (Hf a (printed w out) (printed w' out) Hfiles) as (r2 & out2 & -> & ->).
  exists r2, (out ++ out2)%list. now rewrite !printed_printed.
Qed.

Lemma reads_only_lift {A : Type} (r : result A) : reads_only (lift r).
Proof. intros w w' _. exists r, []. unfold lift. now rewrite !printed_nil. Qed.

Lemma reads_only_warn {A : Type} (line : string) (a : A) :
  reads_only (_ ← print line; mret a).
Proof. intros w w' _. exists (Ok a), [line]. split; reflexivity. Qed.

Lemma load_sheet_1_7_reads_only (env : Env) (p : string) (s : OBRForecast) :
  reads_only (_load_sheet_1_7 env p s).
Proof.
  intros w w' Hfiles. unfold _load_sheet_1_7.
  rewrite (pd_read_excel_files env p "1.7" w w' Hfiles).
  destruct (pd_read_excel env p "1.7" w); [apply reads_only_lift | apply reads_only_warn];
    assumption.
Qed.

Lemma load_sheet_1_6_reads_only (env : Env) (p : string) (s : OBRForecast) :
  reads_only (_load_sheet_1_6 env p s).
Proof.
  intros w w' Hfiles. unfold _load_sheet_1_6.
  rewrite (pd_read_excel_files env p "1.6" w w' Hfiles).
  destruct (pd_read_excel env p "1.6" w); [apply reads_only_lift | apply reads_only_warn];
    assumption.
Qed.

Lemma load_sheet_1_16_reads_only (env : Env) (p : string) (s : OBRForecast) :
  reads_only (_load_sheet_1_16 env p s).
Proof.
  intros w w' Hfiles. unfold _load_sheet_1_16.
  rewrite (pd_read_excel_files env p "1.16" w w' Hfiles).
  destruct (pd_read_excel env p "1.16" w); [apply reads_only_lift | apply reads_only_warn];
    assumption.
Qed.

(** The three loaders in a row read the files and print, no more. *)
Lemma load_sheets_reads_only (env : Env) (p : string) (s : OBRForecast) :
  reads_only (s ← _load_sheet_1_7 env p s;
              s ← _load_sheet_1_6 env p s;
              _load_sheet_1_16 env p s).
Proof.
  apply reads_only_bind; [apply load_sheet_1_7_reads_only|]. intros s1.
  apply reads_only_bind; [apply load_sheet_1_6_reads_only|]. intros s2.
  apply load_sheet_1_16_reads_only.
Qed.

(** The loaders use the surroundings for reading workbooks only. *)
Lemma load_sheets_same_reader (env env' : Env) (p : string) (s : OBRForecast) (w : World) :
  same_reader env env' ->
  (s ← _load_sheet_1_7 env p s; s ← _load_sheet_1_6 env p s; _load_sheet_1_16 env p s) w
  = (s ← _load_sheet_1_7 env' p s; s ← _load_sheet_1_6 env' p s;
     _load_sheet_1_16 env' p s) w.
Proof.
  intros [_ Hread].
  assert (forall sheet w, pd_read_excel env p sheet w = pd_read_excel env' p sheet w) as Hpd.
  { intros sheet w0. unfold pd_read_excel. destruct (files w0 !! p); [apply Hread | reflexivity]. }
  unfold mbind, M_bind, _load_sheet_1_7, _load_sheet_1_6, _load_sheet_1_16.
  rewrite (Hpd "1.7" w).
  destruct (match pd_read_excel env' p "1.7" w with inl _ => _ | inr _ => _ end)
    as [[s1|e] w2]; [|reflexivity].
  rewrite (Hpd "1.6" w2).
  destruct (match pd_read_excel env' p "1.6" w2 with inl _ => _ | inr _ => _ end)
    as [[s2|e] w3]; [|reflexivity].
  now rewrite (Hpd "1.16" w3).
Qed.

(** X9. A construction that returned a snapshot can be repeated on the world
    it left: the second construction returns the same snapshot, sends no
    request and writes no file. *)
Theorem construct_again (env : Env) (edition : string) (cache_dir : option string)
    (w w1 : World) (s : OBRForecast) :
  __init__ env edition cache_dir w = (Ok s, w1) ->
  exists w2, __init__ env edition cache_dir w1 = (Ok s, w2)
             /\ files w2 = files w1 /\ requests w2 = requests w1.
Proof.
  unfold __init__, _load_data.
  set (self := mkOBRForecast edition (cache_dir_of env cache_dir) ∅).
  unfold mbind at 1 4, M_bind at 1 4.
  destruct (_get_excel_path env self w) as [[p|e] wa] eqn:Hp; [|discriminate].
  intros Hload.
  destruct (load_sheets_reads_only env p self wa wa eq_refl) as (r0 & out & H0 & _).
  rewrite Hload in H0. injection H0 as <- ->.
  destruct (load_sheets_reads_only env p self wa (printed wa out) eq_refl)
    as (r & out' & H1 & H2).
  rewrite Hload in H1. injection H1 as <- _.
  assert (p = cache_path self /\ is_Some (files wa !! cache_path self)) as [-> Hcached].
  { apply get_excel_path_inv in Hp
      as [(Hc & [= ->] & ->) | [(_ & _ & [=] & _) | (_ & url & _ & [(e & [=] & _) | Hok])]].
    - split; [reflexivity | assumption].
    - destruct Hok as (status & body & _ & _ & _ & [(n & [=] & _) | ([= ->] & ->)]). simpl.
      rewrite lookup_insert_eq. split; [reflexivity | eauto]. }
  rewrite get_excel_path_cached by assumption.
  rewrite H2. exists (printed (printed wa out) out'). auto.
Qed.

Lemma construct_again_witness :
  __init__ complete "march-2025" None fresh_world = (Ok march_complete, march_fetched)
  /\ exists w2, __init__ complete "march-2025" None march_fetched = (Ok march_complete, w2)
                /\ files w2 = files march_fetched /\ requests w2 = requests march_fetched.
Proof.
  split; [exact init_complete|].
  exact (construct_again complete "march-2025" None fresh_world march_fetched
           march_complete init_complete).
Defined.

(** X10. With the workbook already in the cache, the construction does not
    depend on the server or on the disk being writable: in any surroundings
    that read workbooks alike it returns the same, and it sends no request. *)
Theorem cached_construction_offline (env env' : Env) (edition : string)
    (cache_dir : option string) (w : World) :
  same_reader env env' ->
  is_Some (files w !! cache_path (mkOBRForecast edition (cache_dir_of env cache_dir) ∅)) ->
  __init__ env' edition cache_dir w = __init__ env edition cache_dir w
  /\ requests (snd (__init__ env edition cache_dir w)) = requests w
  /\ files (snd (__init__ env edition cache_dir w)) = files w.
Proof.
  intros Hsame Hcached. unfold __init__, _load_data.
  assert (cache_dir_of env' cache_dir = cache_dir_of env cache_dir) as ->.
  { unfold cache_dir_of. destruct Hsame as [-> _]. reflexivity. }
  set (self := mkOBRForecast edition (cache_dir_of env cache_dir) ∅) in *.
  unfold mbind at 1 4 7 10, M_bind at 1 4 7 10.
  rewrite !get_excel_path_cached by assumption.
  rewrite <- (load_sheets_same_reader env env' _ self w Hsame).
  split; [reflexivity|].
  destruct (load_sheets_reads_only env (cache_path self) self w w eq_refl)
    as (r & out & -> & _).
  split; reflexivity.
Qed.

Lemma cached_construction_offline_witness :
  same_reader complete complete_offline
  /\ is_Some (files march_fetched
              !! cache_path (mkOBRForecast "march-2025" (cache_dir_of complete None) ∅))
  /\ __init__ complete_offline "march-2025" None march_fetched
     = __init__ complete "march-2025" None march_fetched
  /\ requests (snd (__init__ complete "march-2025" None march_fetched))
     = requests march_fetched
  /\ files (snd (__init__ complete "march-2025" None march_fetched)) = files march_fetched.
Proof.
  assert (same_reader complete complete_offline) as Hsame
    by (split; [reflexivity | intros content sheet; reflexivity]).
  assert (is_Some (files march_fetched
                   !! cache_path (mkOBRForecast "march-2025" (cache_dir_of complete None) ∅)))
    as Hcached by (eexists; reflexivity).
  split; [exact Hsame|]. split; [exact Hcached|].
  exact (cached_construction_offline complete complete_offline "march-2025" None
           march_fetched Hsame Hcached).
Defined.

End Reconstruction.

(** ** What a constructed snapshot holds *)

Section Snapshot.

(** What the loader of sheet 1.6 did when it returned. *)
Lemma load_sheet_1_6_inv (env : Env) (p : string) (s s' : OBRForecast) (w w' : World) :
  _load_sheet_1_6 env p s w = (Ok s', w') ->
  (exists msg, pd_read_excel env p "1.6" w = inr msg /\ s' = s)
  \/ (exists df, pd_read_excel env p "1.6" w = inl df
      /\ ((exists c, earnings_column df c
                     /\ load_metric df s ("average_earnings", Z.of_nat c) = Ok s')
          \/ (_find_column_by_header df (str "Average weekly earnings growth") = Ok None
              /\ _find_column_by_header df (str "Average earnings growth") = Ok None
              /\ s' = s))).
Proof.
  unfold _load_sheet_1_6, earnings_column.
  destruct (pd_read_excel env p "1.6" w) as [df|msg].
  - unfold lift. intros [= H _]. right. exists df. split; [reflexivity|]. revert H.
    destruct (_find_column_by_header df (str "Average weekly earnings growth")) as [[c|]|e];
      simpl; [| |discriminate].
    + intros H. left. exists c. auto.
    + destruct (_find_column_by_header df (str "Average earnings growth")) as [[c|]|e];
        simpl; [| |discriminate].
      * intros H. left. exists c. auto.
      * intros [= <-]. right. auto.
  - intros [= <- _]. left. eauto.
Qed.

(** What the loader of sheet 1.16 did when it returned. *)
Lemma load_sheet_1_16_inv (env : Env) (p : string) (s s' : OBRForecast) (w w' : World) :
  _load_sheet_1_16 env p s w = (Ok s', w') ->
  (exists msg, pd_read_excel env p "1.16" w = inr msg /\ s' = s)
  \/ (exists df, pd_read_excel env p "1.16" w = inl df
      /\ ((exists c, _find_column_by_header df (str "per cent change") = Ok (Some c)
                     /\ load_metric df s ("house_prices", Z.of_nat c) = Ok s')
          \/ (_find_column_by_header df (str "per cent change") = Ok None /\ s' = s))).
Proof.
  unfold _load_sheet_1_16.
  destruct (pd_read_excel env p "1.16" w) as [df|msg].
  - unfold lift. intros [= H _]. right. exists df. split; [reflexivity|]. revert H.
    destruct (_find_column_by_header df (str "per cent change")) as [[c|]|e];
      simpl; [| |discriminate].
    + intros H. left. exists c. auto.
    + intros [= <-]. right. auto.
  - intros [= <- _]. left. eauto.
Qed.

(** What the loader of sheet 1.7 did when it returned. *)
Lemma load_sheet_1_7_inv (env : Env) (p : string) (s s' : OBRForecast) (w w' : World) :
  _load_sheet_1_7 env p s w = (Ok s', w') ->
  (exists msg, pd_read_excel env p "1.7" w = inr msg /\ s' = s)
  \/ (exists df, pd_read_excel env p "1.7" w = inl df
                 /\ for_each (load_metric df) col_map s = Ok s').
Proof.
  unfold _load_sheet_1_7. destruct (pd_read_excel env p "1.7" w) as [df|msg].
  - unfold lift. intros [= H _]. right. eauto.
  - intros [= <- _]. left. eauto.
Qed.

(** The steps of a construction that returned a snapshot: the path is the
    cache path, the file is there, and the three loaders ran on its bytes. *)
Lemma init_inv (env : Env) (ed : string) (dir : option string) (w w' : World)
    (s : OBRForecast) :
  __init__ env ed dir w = (Ok s, w') ->
  let self := mkOBRForecast ed (cache_dir_of env dir) ∅ in
  exists content s1 s2 w1 w2 w3,
    files w' !! cache_path self = Some content
    /\ files w1 = files w' /\ files w2 = files w' /\ files w3 = files w'
    /\ _load_sheet_1_7 env (cache_path self) self w1 = (Ok s1, w2)
    /\ _load_sheet_1_6 env (cache_path self) s1 w2 = (Ok s2, w3)
    /\ _load_sheet_1_16 env (cache_path self) s2 w3 = (Ok s, w').
Proof.
  intros H self. revert H. unfold __init__, _load_data. fold self.
  unfold mbind, M_bind.
  destruct (_get_excel_path env self w) as [[p|e] w1] eqn:Hp; [|discriminate].
  assert (p = cache_path self /\ is_Some (files w1 !! cache_path self)) as [-> [content Hc]].
  { apply get_excel_path_inv in Hp
      as [(Hc & [= ->] & ->) | [(_ & _ & [=] & _) | (_ & url & _ & [(e & [=] & _) | Hok])]].
    - split; [reflexivity | assumption].
    - destruct Hok as (status & body & _ & _ & _ & [(n & [=] & _) | ([= ->] & ->)]). simpl.
      rewrite lookup_insert_eq. split; [reflexivity | eauto]. }
  pose proof (load_sheet_1_7_files env (cache_path self) self w1) as H7.
  destruct (_load_sheet_1_7 env (cache_path self) self w1) as [[s1|e] w2] eqn:E7;
    [|discriminate].
  pose proof (load_sheet_1_6_files env (cache_path self) s1 w2) as H6.
  destruct (_load_sheet_1_6 env (cache_path self) s1 w2) as [[s2|e] w3] eqn:E6;
    [|discriminate].
  simpl in H7, H6. intros H16.
  assert (files w' = files w3) as H16f.
  { destruct (load_sheet_1_16_reads_only env (cache_path self) s2 w3 w3 eq_refl)
      as (r & out & Hr & _).
    rewrite H16 in Hr. injection Hr as _ ->. reflexivity. }
  exists content, s1, s2, w1, w2, w3.
  rewrite H16f, H6, H7. split_and!; auto.
Qed.

Lemma pd_read_excel_cached (env : Env) (p sheet : string) (w : World) (content : bytes) :
  files w !! p = Some content -> pd_read_excel env p sheet w = read_excel env content sheet.
Proof. unfold pd_read_excel. now intros ->. Qed.

(** A property of snapshots that storing an extracted series under a known
    metric name keeps is kept by the whole construction. *)
Lemma init_invariant (P : OBRForecast -> Prop) (env : Env) (ed : string)
    (dir : option string) (w w' : World) (s : OBRForecast) :
  (forall s0 df metric col series,
      P s0 -> metric ∈ METRIC_LOCATIONS.*1 -> _extract_annual_data df col = Ok series ->
      P (set_data s0 metric series)) ->
  P (mkOBRForecast ed (cache_dir_of env dir) ∅) ->
  __init__ env ed dir w = (Ok s, w') ->
  P s.
Proof.
  intros Hstep H0 H.
  destruct (init_inv env ed dir w w' s H)
    as (content & s1 & s2 & w1 & w2 & w3 & _ & _ & _ & _ & H7 & H6 & H16).
  assert (P s1) as H1.
  { apply load_sheet_1_7_inv in H7 as [(msg & _ & ->) | (df & _ & Hloop)]; [assumption|].
    revert Hloop. generalize (mkOBRForecast ed (cache_dir_of env dir) ∅) H0.
    assert (Forall (fun item => fst item ∈ METRIC_LOCATIONS.*1) col_map) as Hknown
      by (repeat constructor; simpl; set_solver).
    induction Hknown as [|item items Hitem _ IH]; intros s0 Hs0; simpl.
    - now intros [= <-].
    - destruct (load_metric df s0 item) as [s0'|e] eqn:E; [|discriminate].
      apply load_metric_inv in E as (series & Hx & ->).
      apply IH. now apply (Hstep s0 df (fst item) (snd item) series). }
  assert (P s2) as H2.
  { apply load_sheet_1_6_inv in H6
      as [(msg & _ & ->) | (df & _ & [(c & _ & Hl) | (_ & _ & ->)])]; try assumption.
    apply load_metric_inv in Hl as (series & Hx & ->).
    apply (Hstep s1 df "average_earnings" (Z.of_nat c) series); [assumption | | assumption].
    simpl. set_solver. }
  apply load_sheet_1_16_inv in H16
    as [(msg & _ & ->) | (df & _ & [(c & _ & Hl) | (_ & ->)])]; try assumption.
  apply load_metric_inv in Hl as (series & Hx & ->).
  apply (Hstep s2 df "house_prices" (Z.of_nat c) series); [assumption | | assumption].
  simpl. set_solver.
Qed.

(** X1. A constructed snapshot bears the edition and the cache directory it
    was asked for, and lists no metric outside the seven of
    [METRIC_LOCATIONS]. *)
Theorem constructed_metrics_known (env : Env) (ed : string) (dir : option string)
    (w w' : World) (s : OBRForecast) :
  __init__ env ed dir w = (Ok s, w') ->
  edition s = ed
  /\ cache_dir s = cache_dir_of env dir
  /\ forall metric, metric ∈ available_metrics s -> metric ∈ METRIC_LOCATIONS.*1.
Proof.
  apply (init_invariant
           (fun s => edition s = ed /\ cache_dir s = cache_dir_of env dir
                     /\ forall metric, metric ∈ available_metrics s ->
                                       metric ∈ METRIC_LOCATIONS.*1)).
  - intros s0 df metric col series (He & Hd & Hm) Hknown _.
    split; [exact He|]. split; [exact Hd|].
    intros m Hin. apply elem_of_available_metrics in Hin. simpl in Hin.
    destruct (decide (metric = m)) as [<-|Hne]; [assumption|].
    rewrite lookup_insert_ne in Hin by assumption.
    now apply Hm, elem_of_available_metrics.
  - split; [reflexivity|]. split; [reflexivity|].
    intros m Hin. apply elem_of_available_metrics in Hin. simpl in Hin.
    rewrite lookup_empty in Hin. destruct Hin as [? [=]].
Qed.

Lemma constructed_metrics_known_witness :
  __init__ complete "march-2025" None fresh_world = (Ok march_complete, march_fetched)
  /\ edition march_complete = "march-2025"
  /\ cache_dir march_complete = cache_dir_of complete None
  /\ forall metric, metric ∈ available_metrics march_complete ->
                    metric ∈ METRIC_LOCATIONS.*1.
Proof.
  split; [exact init_complete|].
  exact (constructed_metrics_known complete "march-2025" None fresh_world march_fetched
           march_complete init_complete).
Defined.

(** X2. In a constructed snapshot [get] returns a value for the years 2008 to
    2035 only, whatever the workbook holds. *)
Theorem constructed_years_in_range (env : Env) (ed : string) (dir : option string)
    (w w' : World) (s : OBRForecast) :
  __init__ env ed dir w = (Ok s, w') ->
  forall metric year v, get s metric year = Some v -> 2008 <= year <= 2035.
Proof.
  apply (init_invariant
           (fun s => forall metric year v, get s metric year = Some v ->
                                           2008 <= year <= 2035)).
  - intros s0 df metric col series IH _ Hx m year v. unfold get. simpl.
    destruct (decide (metric = m)) as [<-|Hne].
    + rewrite lookup_insert_eq. intros Hv.
      apply (extract_returns df col series Hx) in Hv
        as (r & (_ & (yc & Hyear) & _) & _).
      apply Hyear.
    + rewrite lookup_insert_ne by assumption. apply (IH m year v).
  - intros m year v. unfold get. simpl. rewrite lookup_empty. discriminate.
Qed.

Lemma constructed_years_in_range_witness :
  __init__ complete "march-2025" None fresh_world = (Ok march_complete, march_fetched)
  /\ get march_complete "cpi" 2026 = Some (dbl 5 (-1))
  /\ 2008 <= 2026 <= 2035.
Proof.
  split; [exact init_complete|]. split; [reflexivity|].
  exact (constructed_years_in_range complete "march-2025" None fresh_world march_fetched
           march_complete init_complete "cpi" 2026 (dbl 5 (-1)) eq_refl).
Defined.

Lemma col_map_names_NoDup : NoDup col_map.*1.
Proof. apply (bool_decide_unpack _). vm_compute. exact I. Qed.

Lemma col_map_names (metric : string) (col : Z) :
  (metric, col) ∈ col_map ->
  metric ∈ col_map.*1 /\ metric <> "average_earnings" /\ metric <> "house_prices".
Proof.
  intros Hin. split; [apply list_elem_of_fmap; exists (metric, col); auto|].
  simpl in Hin.
  repeat (apply elem_of_cons in Hin as [[= -> _]|Hin]; [split; discriminate|]).
  now apply elem_of_nil in Hin.
Qed.

(** X3. After a construction the workbook is in the cache, and the five
    metrics of sheet 1.7 stand or fall together: if the sheet reads, each of
    them is listed and [get] returns for it exactly the last qualifying
    row's value of its column of that sheet; if it does not read, none of
    them is listed. *)
Theorem sheet_1_7_series (env : Env) (ed : string) (dir : option string)
    (w w' : World) (s : OBRForecast) :
  __init__ env ed dir w = (Ok s, w') ->
  exists content,
    files w' !! cache_path (mkOBRForecast ed (cache_dir_of env dir) ∅) = Some content
    /\ match read_excel env content "1.7" with
       | inl df =>
           forall metric col, (metric, col) ∈ col_map ->
             metric ∈ available_metrics s
             /\ forall year v, get s metric year = Some v <-> last_qualifying df col year v
       | inr _ => forall metric, metric ∈ col_map.*1 -> metric ∉ available_metrics s
       end.
Proof.
  intros H.
  destruct (init_inv env ed dir w w' s H)
    as (content & s1 & s2 & w1 & w2 & w3 & Hc & Hf1 & Hf2 & Hf3 & H7 & H6 & H16).
  exists content. split; [exact Hc|].
  assert (forall metric, metric <> "average_earnings" -> metric <> "house_prices" ->
                         _data s !! metric = _data s1 !! metric) as Hkeep.
  { intros metric Hae Hhp.
    rewrite (load_sheet_1_16_frame _ _ _ _ _ _ H16 metric Hhp).
    apply (load_sheet_1_6_frame _ _ _ _ _ _ H6 metric Hae). }
  pose proof (pd_read_excel_cached env _ "1.7" w1 content ltac:(rewrite Hf1; exact Hc)) as Hread.
  apply load_sheet_1_7_inv in H7 as [(msg & Hr & ->) | (df & Hr & Hloop)];
    rewrite Hread in Hr; rewrite Hr.
  - intros metric Hin. apply not_available.
    assert (exists col, (metric, col) ∈ col_map) as [col Hcol].
    { apply list_elem_of_fmap in Hin as ([m col] & -> & Hin). eauto. }
    destruct (col_map_names metric col Hcol) as (_ & Hae & Hhp).
    rewrite (Hkeep metric Hae Hhp). apply lookup_empty.
  - intros metric col Hin.
    destruct (col_map_names metric col Hin) as (_ & Hae & Hhp).
    destruct (load_metrics_lookup df col_map _ s1 col_map_names_NoDup Hloop metric col Hin)
      as (series & Hx & Hs1).
    rewrite <- (Hkeep metric Hae Hhp) in Hs1.
    split; [exact (available s metric series Hs1)|].
    intros year v. rewrite (get_series_of s metric series year Hs1).
    apply (extract_returns df col series Hx).
Qed.

Lemma sheet_1_7_series_witness :
  __init__ complete "march-2025" None fresh_world = (Ok march_complete, march_fetched)
  /\ exists content,
       files march_fetched
       !! cache_path (mkOBRForecast "march-2025" (cache_dir_of complete None) ∅)
       = Some content
       /\ match read_excel complete content "1.7" with
          | inl df =>
              forall metric col, (metric, col) ∈ col_map ->
                metric ∈ available_metrics march_complete
                /\ forall year v, get march_complete metric year = Some v
                                  <-> last_qualifying df col year v
          | inr _ =>
              forall metric, metric ∈ col_map.*1 -> metric ∉ available_metrics march_complete
          end.
Proof.
  split; [exact init_complete|].
  exact (sheet_1_7_series complete "march-2025" None fresh_world march_fetched
           march_complete init_complete).
Defined.

Lemma earnings_column_functional (df : DataFrame) (c c' : nat) :
  earnings_column df c -> earnings_column df c' -> c = c'.
Proof. unfold earnings_column. intros [H|[H1 H2]] [H'|[H1' H2']]; congruence. Qed.

(** X4. After a construction, if sheet 1.6 of the cached workbook reads, the
    earnings series is taken from the column of the header "Average weekly
    earnings growth", or, only when no cell has that header, from the column
    of "Average earnings growth": [get] returns exactly the last qualifying
    row's value of that column. With neither header, or a sheet that does
    not read, the metric is not listed. *)
Theorem sheet_1_6_series (env : Env) (ed : string) (dir : option string)
    (w w' : World) (s : OBRForecast) :
  __init__ env ed dir w = (Ok s, w') ->
  exists content,
    files w' !! cache_path (mkOBRForecast ed (cache_dir_of env dir) ∅) = Some content
    /\ match read_excel env content "1.6" with
       | inl df =>
           (forall c, earnings_column df c ->
              "average_earnings" ∈ available_metrics s
              /\ forall year v, get s "average_earnings" year = Some v
                                <-> last_qualifying df (Z.of_nat c) year v)
           /\ (_find_column_by_header df (str "Average weekly earnings growth") = Ok None ->
               _find_column_by_header df (str "Average earnings growth") = Ok None ->
               "average_earnings" ∉ available_metrics s)
       | inr _ => "average_earnings" ∉ available_metrics s
       end.
Proof.
  intros H.
  destruct (init_inv env ed dir w w' s H)
    as (content & s1 & s2 & w1 & w2 & w3 & Hc & Hf1 & Hf2 & Hf3 & H7 & H6 & H16).
  exists content. split; [exact Hc|].
  assert (_data s !! "average_earnings" = _data s2 !! "average_earnings") as Hkeep
    by (apply (load_sheet_1_16_frame _ _ _ _ _ _ H16); discriminate).
  assert (_data s1 !! "average_earnings" = None) as Hs1.
  { rewrite (load_sheet_1_7_frame _ _ _ _ _ _ H7 "average_earnings");
      [apply lookup_empty|].
    intros Hin. apply list_elem_of_fmap in Hin as ([m col] & Hm & Hin). simpl in Hm. subst m.
    now destruct (col_map_names _ _ Hin) as (_ & Hne & _). }
  pose proof (pd_read_excel_cached env _ "1.6" w2 content ltac:(rewrite Hf2; exact Hc)) as Hread.
  apply load_sheet_1_6_inv in H6
    as [(msg & Hr & ->) | (df & Hr & [(c' & Hcol & Hl) | (Hn1 & Hn2 & ->)])];
    rewrite Hread in Hr; rewrite Hr.
  - apply not_available. congruence.
  - apply load_metric_inv in Hl as (series & Hx & ->). simpl in Hx, Hkeep.
    rewrite lookup_insert_eq in Hkeep. split.
    + intros c Hc'. rewrite (earnings_column_functional df c c' Hc' Hcol).
      split; [exact (available s _ series Hkeep)|].
      intros year v. rewrite (get_series_of s _ series year Hkeep).
      apply (extract_returns df (Z.of_nat c') series Hx).
    + intros Hn1 Hn2. destruct Hcol as [Hcol|[_ Hcol]]; congruence.
  - split.
    + intros c [Hcol|[_ Hcol]]; congruence.
    + intros _ _. apply not_available. congruence.
Qed.

Lemma sheet_1_6_series_witness :
  __init__ complete "march-2025" None fresh_world = (Ok march_complete, march_fetched)
  /\ exists content,
       files march_fetched
       !! cache_path (mkOBRForecast "march-2025" (cache_dir_of complete None) ∅)
       = Some content
       /\ match read_excel complete content "1.6" with
          | inl df =>
              (forall c, earnings_column df c ->
                 "average_earnings" ∈ available_metrics march_complete
                 /\ forall year v, get march_complete "average_earnings" year = Some v
                                   <-> last_qualifying df (Z.of_nat c) year v)
              /\ (_find_column_by_header df (str "Average weekly earnings growth") = Ok None ->
                  _find_column_by_header df (str "Average earnings growth") = Ok None ->
                  "average_earnings" ∉ available_metrics march_complete)
          | inr _ => "average_earnings" ∉ available_metrics march_complete
          end.
Proof.
  split; [exact init_complete|].
  exact (sheet_1_6_series complete "march-2025" None fresh_world march_fetched
           march_complete init_complete).
Defined.

(** X5. After a construction, if sheet 1.16 of the cached workbook reads, the
    house price series is taken from the column of the first cell, among the
    first ten rows, that contains "per cent change": [get] returns exactly
    the last qualifying row's value of that column. With no such cell, or a
    sheet that does not read, the metric is not listed. *)
Theorem sheet_1_16_series (env : Env) (ed : string) (dir : option string)
    (w w' : World) (s : OBRForecast) :
  __init__ env ed dir w = (Ok s, w') ->
  exists content,
    files w' !! cache_path (mkOBRForecast ed (cache_dir_of env dir) ∅) = Some content
    /\ match read_excel env content "1.16" with
       | inl df =>
           match _find_column_by_header df (str "per cent change") with
           | Ok (Some c) =>
               "house_prices" ∈ available_metrics s
               /\ forall year v, get s "house_prices" year = Some v
                                 <-> last_qualifying df (Z.of_nat c) year v
           | _ => "house_prices" ∉ available_metrics s
           end
       | inr _ => "house_prices" ∉ available_metrics s
       end.
Proof.
  intros H.
  destruct (init_inv env ed dir w w' s H)
    as (content & s1 & s2 & w1 & w2 & w3 & Hc & Hf1 & Hf2 & Hf3 & H7 & H6 & H16).
  exists content. split; [exact Hc|].
  assert (_data s2 !! "house_prices" = None) as Hs2.
  { rewrite (load_sheet_1_6_frame _ _ _ _ _ _ H6 "house_prices") by discriminate.
    rewrite (load_sheet_1_7_frame _ _ _ _ _ _ H7 "house_prices"); [apply lookup_empty|].
    intros Hin. apply list_elem_of_fmap in Hin as ([m col] & Hm & Hin). simpl in Hm. subst m.
    now destruct (col_map_names _ _ Hin) as (_ & _ & Hne). }
  pose proof (pd_read_excel_cached env _ "1.16" w3 content ltac:(rewrite Hf3; exact Hc)) as Hread.
  apply load_sheet_1_16_inv in H16
    as [(msg & Hr & ->) | (df & Hr & [(c & Hcol & Hl) | (Hn & ->)])];
    rewrite Hread in Hr; rewrite Hr.
  - now apply not_available.
  - rewrite Hcol. apply load_metric_inv in Hl as (series & Hx & ->).
    cbn [fst snd] in *.
    assert (_data (set_data s2 "house_prices" series) !! "house_prices" = Some series)
      as Hs by (simpl; apply lookup_insert_eq).
    split; [exact (available _ _ series Hs)|].
    intros year v. rewrite (get_series_of _ _ series year Hs).
    apply (extract_returns df (Z.of_nat c) series Hx).
  - rewrite Hn. now apply not_available.
Qed.

Lemma sheet_1_16_series_witness :
  __init__ complete "march-2025" None fresh_world = (Ok march_complete, march_fetched)
  /\ exists content,
       files march_fetched
       !! cache_path (mkOBRForecast "march-2025" (cache_dir_of complete None) ∅)
       = Some content
       /\ match read_excel complete content "1.16" with
          | inl df =>
              match _find_column_by_header df (str "per cent change") with
              | Ok (Some c) =>
                  "house_prices" ∈ available_metrics march_complete
                  /\ forall year v, get march_complete "house_prices" year = Some v
                                    <-> last_qualifying df (Z.of_nat c) year v
              | _ => "house_prices" ∉ available_metrics march_complete
              end
          | inr _ => "house_prices" ∉ available_metrics march_complete
          end.
Proof.
  split; [exact init_complete|].
  exact (sheet_1_16_series complete "march-2025" None fresh_world march_fetched
           march_complete init_complete).
Defined.

End Snapshot.

(** ** Effects of a construction *)

Section ConstructionEffects.

(** What a fetch leaves of the files and adds to the requests. *)
Lemma get_excel_path_frame (env : Env) (self : OBRForecast) (w w1 : World)
    (r : result string) :
  _get_excel_path env self w = (r, w1) ->
  (forall path, path <> cache_path self -> files w1 !! path = files w !! path)
  /\ (requests w1 = requests w
      \/ exists url, OBR_URLS !! edition self = Some url
                     /\ requests w1 = (requests w ++ [url])%list)
  /\ (is_Some (files w !! cache_path self) -> w1 = w).
Proof.
  intros H.
  apply get_excel_path_inv in H
    as [(Hc & -> & ->) | [(Hnone & _ & -> & ->) | (Hnone & url & Hurl & [(e & -> & ->) | Hok])]].
  - auto.
  - auto.
  - simpl. split; [reflexivity|]. split; [eauto|]. rewrite Hnone. intros [? [=]].
  - destruct Hok as (status & body & _ & _ & _ & [(n & -> & ->) | (-> & ->)]); simpl;
      (split; [intros path Hne; now apply lookup_insert_ne|]);
      (split; [eauto|]); rewrite Hnone; intros [? [=]].
Qed.

(** X6. Whatever a construction returns or raises, it leaves every file
    other than the edition's cache path as it was and sends no request or
    one, to the registered URL; with the workbook already in the cache it
    writes no file and sends no request at all. *)
Theorem construction_effects (env : Env) (ed : string) (dir : option string)
    (w w' : World) (r : result OBRForecast) :
  __init__ env ed dir w = (r, w') ->
  let self := mkOBRForecast ed (cache_dir_of env dir) ∅ in
  (forall path, path <> cache_path self -> files w' !! path = files w !! path)
  /\ (requests w' = requests w
      \/ exists url, OBR_URLS !! ed = Some url /\ requests w' = (requests w ++ [url])%list)
  /\ (is_Some (files w !! cache_path self) -> files w' = files w /\ requests w' = requests w).
Proof.
  intros H self. revert H. unfold __init__, _load_data. fold self.
  unfold mbind at 1, M_bind at 1.
  destruct (_get_excel_path env self w) as [[p|e] w1] eqn:Hp.
  - destruct (load_sheets_reads_only env p self w1 w1 eq_refl) as (r1 & out & -> & _).
    intros [= <- <-]. simpl.
    destruct (get_excel_path_frame env self w w1 _ Hp) as (Hfiles & Hreq & Hcached).
    split; [exact Hfiles|]. split; [exact Hreq|].
    intros Hc. now rewrite (Hcached Hc).
  - intros [= <- <-].
    destruct (get_excel_path_frame env self w w1 _ Hp) as (Hfiles & Hreq & Hcached).
    split; [exact Hfiles|]. split; [exact Hreq|].
    intros Hc. now rewrite (Hcached Hc).
Qed.

Lemma construction_effects_witness :
  __init__ complete "march-2025" None fresh_world = (Ok march_complete, march_fetched)
  /\ (forall path,
        path <> cache_path (mkOBRForecast "march-2025" (cache_dir_of complete None) ∅) ->
        files march_fetched !! path = files fresh_world !! path)
  /\ (requests march_fetched = requests fresh_world
      \/ exists url, OBR_URLS !! "march-2025" = Some url
                     /\ requests march_fetched = (requests fresh_world ++ [url])%list)
  /\ (is_Some (files fresh_world
               !! cache_path (mkOBRForecast "march-2025" (cache_dir_of complete None) ∅)) ->
      files march_fetched = files fresh_world
      /\ requests march_fetched = requests fresh_world).
Proof.
  split; [exact init_complete|].
  exact (construction_effects complete "march-2025" None fresh_world march_fetched
           (Ok march_complete) init_complete).
Defined.

End ConstructionEffects.

(** ** Edge cases of the comparison, the extractor and the locator *)

Section Edges.

(** X11. [compare_to] never raises: it returns a table indexed by the
    requested years; for two snapshots of the same edition the table has the
    single column of that edition, and the column holds the values of the
    snapshot passed as [other]. *)
Theorem compare_to_returns (self other : OBRForecast) (metric : string)
    (years : option (list Z)) :
  exists t, compare_to self other metric years = Ok t
            /\ index t = default default_years years
            /\ (edition self = edition other ->
                data t = [(edition other,
                           map (get other metric) (default default_years years))]).
Proof.
  unfold compare_to. rewrite dict_display_two.
  destruct (String.eqb_spec (edition other) (edition self)) as [Heq|Hne];
    unfold DataFrame_of_dict; simpl; rewrite !length_map, Nat.eqb_refl; simpl.
  - eexists. split; [reflexivity|]. split; reflexivity.
  - eexists. split; [reflexivity|]. split; [reflexivity|]. congruence.
Qed.

Lemma position_1_narrow (n : nat) : (n <= 1)%nat -> position 1 n = None.
Proof.
  intros H. unfold position.
  destruct (Z.ltb_spec 1 (Z.of_nat n)); [lia|]. simpl.
  destruct (Z.leb_spec (- Z.of_nat n) 1); reflexivity.
Qed.

(** X12. On a sheet with no row the extraction returns the empty mapping,
    whatever the value column; on a sheet that has a row and fewer than two
    columns it raises [IndexError], whatever the value column. *)
Theorem extract_degenerate (df : DataFrame) (col : Z) :
  (shape0 df = 0%nat -> _extract_annual_data df col = Ok ∅)
  /\ ((0 < shape0 df)%nat -> (shape1 df <= 1)%nat ->
      _extract_annual_data df col = Raise IndexError).
Proof.
  unfold _extract_annual_data, range. split.
  - now intros ->.
  - intros Hrows Hcols. destruct (shape0 df) as [|n] eqn:E; [lia|]. simpl.
    unfold annual_row, iloc. rewrite (position_1_narrow _ Hcols).
    now destruct (position (Z.of_nat 0) (shape0 df)).
Qed.

Lemma extract_degenerate_witness :
  (0 < shape0 one_column)%nat /\ (shape1 one_column <= 1)%nat
  /\ _extract_annual_data one_column 0 = Raise IndexError.
Proof.
  assert (0 < shape0 one_column)%nat as Hrows by (unfold shape0; simpl; lia).
  assert (shape1 one_column <= 1)%nat as Hcols by (unfold shape1; simpl; lia).
  split; [exact Hrows|]. split; [exact Hcols|].
  exact (proj2 (extract_degenerate one_column 0) Hrows Hcols).
Defined.

Lemma for_each_ext {S A : Type} (f g : S -> A -> result S) (xs : list A) (acc : S) :
  (forall a x, x ∈ xs -> f a x = g a x) -> for_each f xs acc = for_each g xs acc.
Proof.
  revert acc. induction xs as [|x xs IH]; intros acc H; simpl; [reflexivity|].
  rewrite (H acc x) by left. destruct (g acc x) as [acc1|e]; [|reflexivity].
  apply IH. intros acc2 y Hy. apply H. now right.
Qed.

(** X13. The extraction reads the year column and the value column and no
    other cell: two sheets of as many rows that agree on those two columns
    give the same result, be it a mapping or an exception. *)
Theorem extract_reads_two_columns (df df' : DataFrame) (col : Z) :
  shape0 df = shape0 df' ->
  (forall r, (r < shape0 df)%nat ->
             iloc df (Z.of_nat r) 1 = iloc df' (Z.of_nat r) 1
             /\ iloc df (Z.of_nat r) col = iloc df' (Z.of_nat r) col) ->
  _extract_annual_data df col = _extract_annual_data df' col.
Proof.
  intros Hrows Hcells. unfold _extract_annual_data. rewrite <- Hrows.
  apply for_each_ext. intros acc r Hr. apply list_elem_of_In, in_seq in Hr.
  destruct (Hcells r ltac:(lia)) as [Hy Hv].
  unfold annual_row. now rewrite Hy, Hv.
Qed.

Lemma extract_reads_two_columns_witness :
  shape0 example_sheet = shape0 example_sheet_relabelled
  /\ _extract_annual_data example_sheet 2 = _extract_annual_data example_sheet_relabelled 2.
Proof.
  split; [reflexivity|].
  apply (extract_reads_two_columns example_sheet example_sheet_relabelled 2 eq_refl).
  intros r Hr. do 9 (destruct r as [|r]; [split; reflexivity|]).
  unfold shape0, example_sheet in Hr. simpl in Hr. lia.
Defined.

Lemma iloc_first_ten_rows (df : DataFrame) (r : nat) (c : Z) :
  (r < Nat.min 10 (shape0 df))%nat ->
  iloc (first_ten_rows df) (Z.of_nat r) c = iloc df (Z.of_nat r) c.
Proof.
  intros Hr. unfold iloc, shape0, shape1, first_ten_rows, cell in *. simpl.
  rewrite length_take. rewrite !position_of_nat by lia.
  destruct (position c (columns df)) as [j|]; [|reflexivity].
  rewrite nth_firstn. destruct (Nat.ltb_spec r 10); [reflexivity | lia].
Qed.

Lemma find_in_row_ext (df df' : DataFrame) (header_text : list Z) (r : nat)
    (cols : list nat) :
  (forall c, iloc df' (Z.of_nat r) c = iloc df (Z.of_nat r) c) ->
  find_in_row df' header_text r cols = find_in_row df header_text r cols.
Proof.
  intros H. induction cols as [|c cols IH]; simpl; [reflexivity|].
  rewrite H. destruct (iloc df (Z.of_nat r) (Z.of_nat c)) as [x|e]; simpl; [|reflexivity].
  now rewrite IH.
Qed.

(** X14. The header search looks at the first ten rows only: cutting the
    sheet after its tenth row changes nothing in what it returns. *)
Theorem find_column_first_ten_rows (df : DataFrame) (header_text : list Z) :
  _find_column_by_header (first_ten_rows df) header_text
  = _find_column_by_header df header_text.
Proof.
  unfold _find_column_by_header.
  assert (shape0 (first_ten_rows df) = Nat.min 10 (shape0 df)) as ->
    by (unfold shape0, first_ten_rows; cbn [rows]; apply length_take).
  replace (Nat.min 10 (Nat.min 10 (shape0 df))) with (Nat.min 10 (shape0 df)) by lia.
  assert (Forall (fun r => (r < Nat.min 10 (shape0 df))%nat)
                 (range (Nat.min 10 (shape0 df)))) as Hrs by apply range_in_shape.
  induction Hrs as [|r rs Hr _ IH]; cbn [find_in_rows]; [reflexivity|].
  change (shape1 (first_ten_rows df)) with (shape1 df).
  rewrite (find_in_row_ext df (first_ten_rows df) header_text r)
    by (intros c; now apply iloc_first_ten_rows).
  destruct (find_in_row df header_text r (range (shape1 df))) as [[c|]|e];
    [reflexivity | exact IH | reflexivity].
Qed.

End Edges.

(** ** The exceptions of the extractor and of a construction *)

Section Errors.

Lemma for_each_Raise {S A : Type} (f : S -> A -> result S) (xs : list A) (acc : S)
    (e : exn) :
  for_each f xs acc = Raise e -> exists a x, x ∈ xs /\ f a x = Raise e.
Proof.
  revert acc. induction xs as [|x xs IH]; intros acc; simpl; [discriminate|].
  destruct (f acc x) as [acc1|e1] eqn:E.
  - intros H. destruct (IH acc1 H) as (a & y & Hy & Hf). exists a, y. split; [now right | exact Hf].
  - intros [= ->]. exists acc, x. split; [left | exact E].
Qed.

Lemma position_1_None (n : nat) : position 1 n = None -> (n <= 1)%nat.
Proof.
  unfold position. destruct (Z.ltb_spec 1 (Z.of_nat n)); simpl; [discriminate | lia].
Qed.

Lemma float_of_int_Raise (n : Z) (e : exn) : float_of_int n = Raise e -> e = OverflowError.
Proof.
  unfold float_of_int. destruct (binary_normalize prec emax n 0 false); congruence.
Qed.

(** One turn of the loop raises [IndexError], for a column that is not
    there, or [OverflowError], from [int] or [float], and nothing else. *)
Lemma annual_row_Raise (df : DataFrame) (col : Z) (acc : gmap Z spec_float) (r : nat)
    (e : exn) :
  (r < shape0 df)%nat ->
  annual_row df col acc r = Raise e ->
  (e = IndexError /\ ((shape1 df <= 1)%nat \/ position col (shape1 df) = None))
  \/ e = OverflowError.
Proof.
  intros Hr. unfold annual_row, iloc. rewrite (position_of_nat r _ Hr).
  destruct (position 1 (shape1 df)) as [j|] eqn:H1; simpl.
  2:{ intros [= <-]. left. split; [reflexivity|]. left. now apply position_1_None. }
  destruct (isinstance_int_float (cell df r j) && notna (cell df r j)) eqn:Hg;
    [|discriminate].
  destruct (int (cell df r j)) as [y|ey] eqn:Hint; simpl.
  2:{ intros [= <-]. right.
      destruct (cell df r j) as [s|n|b|f|i64| |]; simpl in *; try discriminate.
      destruct f; simpl in *; try discriminate. congruence. }
  destruct ((2008 <=? y) && (y <=? 2035)); [|discriminate].
  destruct (position col (shape1 df)) as [k|] eqn:Hk; simpl.
  2:{ intros [= <-]. left. auto. }
  destruct (notna (cell df r k) && isinstance_int_float (cell df r k)) eqn:Hgv;
    [|discriminate].
  destruct (float (cell df r k)) as [v|ev] eqn:Hf; simpl; [discriminate|].
  intros [= <-]. right.
  destruct (cell df r k) as [s|n|b|f|i64| |]; simpl in *; try discriminate.
  - now apply float_of_int_Raise in Hf.
  - now apply float_of_int_Raise in Hf.
Qed.

Lemma extract_raises (df : DataFrame) (col : Z) (e : exn) :
  _extract_annual_data df col = Raise e ->
  (e = IndexError /\ ((shape1 df <= 1)%nat \/ position col (shape1 df) = None))
  \/ e = OverflowError.
Proof.
  intros H. apply for_each_Raise in H as (acc & r & Hr & Hrow).
  apply list_elem_of_In, in_seq in Hr.
  apply (annual_row_Raise df col acc r e); [lia | exact Hrow].
Qed.

(** X15. [_extract_annual_data] raises nothing but [IndexError] and
    [OverflowError], and [IndexError] only when the sheet has no column 1 or
    no column at the value column's index. *)
Theorem extract_errors (df : DataFrame) (col : Z) (e : exn) :
  _extract_annual_data df col = Raise e ->
  (e = IndexError /\ ((shape1 df <= 1)%nat \/ position col (shape1 df) = None))
  \/ e = OverflowError.
Proof. exact (extract_raises df col e). Qed.

Lemma extract_errors_witness :
  _extract_annual_data narrow_sheet 4 = Raise IndexError
  /\ ((IndexError = IndexError
       /\ ((shape1 narrow_sheet <= 1)%nat \/ position 4 (shape1 narrow_sheet) = None))
      \/ IndexError = OverflowError).
Proof.
  split; [reflexivity|].
  exact (extract_errors narrow_sheet 4 IndexError eq_refl).
Defined.

Lemma load_metric_Raise (df : DataFrame) (s : OBRForecast) (item : string * Z) (e : exn) :
  load_metric df s item = Raise e -> e = IndexError \/ e = OverflowError.
Proof.
  unfold load_metric.
  destruct (_extract_annual_data df (snd item)) as [series|e1] eqn:E; simpl; [discriminate|].
  intros [= <-]. apply extract_raises in E. tauto.
Qed.

Lemma get_excel_path_Raise (env : Env) (self : OBRForecast) (w w1 : World) (e : exn) :
  _get_excel_path env self w = (Raise e, w1) ->
  (e = ValueError ("Unknown OBR edition: " +:+ edition self)
   /\ OBR_URLS !! edition self = None)
  \/ e = ConnectionError
  \/ (exists status, e = HTTPError status /\ 400 <= status < 600)
  \/ e = OSError.
Proof.
  unfold _get_excel_path, mbind, M_bind, path_exists.
  destruct (bool_decide (is_Some (files w !! cache_path self))); simpl; [discriminate|].
  destruct (falsy (OBR_URLS !! edition self)) eqn:Hf.
  - apply falsy_registry in Hf. intros [= <- _]. left. auto.
  - unfold requests_get.
    destruct (http_get env (length (requests w)) _) as [|status content].
    + intros [= <- _]. right. left. reflexivity.
    + destruct ((400 <=? status) && (status <? 600)) eqn:Hst.
      * intros [= <- _]. right. right. left. exists status. split; [reflexivity|].
        apply andb_true_iff in Hst as [Hlo Hhi].
        apply Z.leb_le in Hlo. apply Z.ltb_lt in Hhi. lia.
      * unfold write_bytes. destruct (can_write env (cache_path self)).
        -- destruct (write_outcome env (cache_path self) content); [discriminate|].
           intros [= <- _]. right. right. right. reflexivity.
        -- intros [= <- _]. right. right. right. reflexivity.
Qed.

Lemma load_sheet_1_7_Raise (env : Env) (p : string) (s : OBRForecast) (w w' : World)
    (e : exn) :
  _load_sheet_1_7 env p s w = (Raise e, w') -> e = IndexError \/ e = OverflowError.
Proof.
  unfold _load_sheet_1_7. destruct (pd_read_excel env p "1.7" w) as [df|msg];
    [|discriminate].
  unfold lift. intros H0.
  assert (for_each (load_metric df) col_map s = Raise e) as H by (now injection H0).
  apply for_each_Raise in H as (s0 & item & _ & H).
  now apply load_metric_Raise in H.
Qed.

Lemma load_sheet_1_6_Raise (env : Env) (p : string) (s : OBRForecast) (w w' : World)
    (e : exn) :
  _load_sheet_1_6 env p s w = (Raise e, w') -> e = IndexError \/ e = OverflowError.
Proof.
  unfold _load_sheet_1_6. destruct (pd_read_excel env p "1.6" w) as [df|msg];
    [|discriminate].
  unfold lift. intros [= H _]. revert H.
  destruct (_find_column_by_header df (str "Average weekly earnings growth")) as [[c|]|e1] eqn:E1;
    simpl; [| |now apply find_column_never_raises in E1].
  - apply load_metric_Raise.
  - destruct (_find_column_by_header df (str "Average earnings growth")) as [[c|]|e2] eqn:E2;
      simpl; [| discriminate | now apply find_column_never_raises in E2].
    apply load_metric_Raise.
Qed.

Lemma load_sheet_1_16_Raise (env : Env) (p : string) (s : OBRForecast) (w w' : World)
    (e : exn) :
  _load_sheet_1_16 env p s w = (Raise e, w') -> e = IndexError \/ e = OverflowError.
Proof.
  unfold _load_sheet_1_16. destruct (pd_read_excel env p "1.16" w) as [df|msg];
    [|discriminate].
  unfold lift. intros [= H _]. revert H.
  destruct (_find_column_by_header df (str "per cent change")) as [[c|]|e1] eqn:E1;
    simpl; [| discriminate | now apply find_column_never_raises in E1].
  apply load_metric_Raise.
Qed.

(** X16. A construction raises one of six exceptions and no other: the
    unknown-edition [ValueError], for an edition that is not registered;
    [ConnectionError], an [HTTPError] with a 4xx or 5xx status, or [OSError]
    from the fetch; [IndexError] or [OverflowError] from the extraction of a
    sheet that was read. *)
Theorem construction_errors (env : Env) (ed : string) (dir : option string)
    (w w' : World) (e : exn) :
  __init__ env ed dir w = (Raise e, w') ->
  (e = ValueError ("Unknown OBR edition: " +:+ ed) /\ OBR_URLS !! ed = None)
  \/ e = ConnectionError
  \/ (exists status, e = HTTPError status /\ 400 <= status < 600)
  \/ e = OSError
  \/ e = IndexError
  \/ e = OverflowError.
Proof.
  unfold __init__, _load_data.
  set (self := mkOBRForecast ed (cache_dir_of env dir) ∅).
  unfold mbind, M_bind.
  destruct (_get_excel_path env self w) as [[p|e0] w1] eqn:Hp.
  - assert (e = IndexError \/ e = OverflowError -> 
            (e = ValueError ("Unknown OBR edition: " +:+ ed) /\ OBR_URLS !! ed = None)
            \/ e = ConnectionError
            \/ (exists status, e = HTTPError status /\ 400 <= status < 600)
            \/ e = OSError \/ e = IndexError \/ e = OverflowError) as Hwiden by tauto.
    destruct (_load_sheet_1_7 env p self w1) as [[s1|e1] w2] eqn:H7.
    + destruct (_load_sheet_1_6 env p s1 w2) as [[s2|e2] w3] eqn:H6.
      * intros H16. apply Hwiden. now apply load_sheet_1_16_Raise in H16.
      * intros [= <- _]. apply Hwiden. now apply load_sheet_1_6_Raise in H6.
    + intros [= <- _]. apply Hwiden. now apply load_sheet_1_7_Raise in H7.
  - intros [= <- _]. apply get_excel_path_Raise in Hp. simpl in Hp. tauto.
Qed.

Lemma construction_errors_witness :
  __init__ unavailable "march-2025" None fresh_world
  = (Raise (HTTPError 503),
     mkWorld ∅ ["https://obr.uk/docs/dlm_uploads/Economy_Detailed_forecast_tables_March_2025.xlsx"] [])
  /\ ((HTTPError 503 = ValueError ("Unknown OBR edition: " +:+ "march-2025")
       /\ OBR_URLS !! "march-2025" = None)
      \/ HTTPError 503 = ConnectionError
      \/ (exists status, HTTPError 503 = HTTPError status /\ 400 <= status < 600)
      \/ HTTPError 503 = OSError
      \/ HTTPError 503 = IndexError
      \/ HTTPError 503 = OverflowError).
Proof.
  split; [reflexivity|].
  exact (construction_errors unavailable "march-2025" None fresh_world _ (HTTPError 503)
           eq_refl).
Defined.

End Errors.
